(** * PPASR: batch collation, label conversion and the streaming predictor

    A shallow embedding of
      - [collate_fn] and the label conversion of [PPASRDataset.__getitem__]
        (data_utils/reader.py and utils/data.py, whose texts of these two
        functions are identical), and
      - [InferencePredictor] (ppasr/infer_utils/inference_predictor.py),
    followed by the properties of these functions.

    Python exceptions are values of [exn]; a computation that may raise
    returns [result]. NumPy arrays carry their shape next to their data. *)

From Stdlib Require Import Ascii String DecimalString DecimalNat.
From Stdlib Require QArith Qcanon.
From stdpp Require Import base numbers list gmap strings sorting.

(** Rational numbers, for the durations of the manifest. *)
Abbreviation Qc := Qcanon.Qc.
Abbreviation Qclt := Qcanon.Qclt.
Abbreviation Qcle := Qcanon.Qcle.

Set Default Proof Using "Type".

(** ** Exceptions and the error monad *)

Inductive exn : Type :=
  | IndexError       (* sequence index out of range *)
  | ValueError       (* NumPy: could not broadcast input array *)
  | AttributeError   (* attribute access on None *)
  | EngineError.     (* raised inside the inference engine's run() *)

#[global] Instance exn_eq_dec : EqDecision exn.
Proof. solve_decision. Defined.

Definition result (T : Type) : Type := exn + T.

Definition Ok {T} (v : T) : result T := inr v.
Definition Raise {T} (e : exn) : result T := inl e.

Definition bind {T U} (m : result T) (k : T → result U) : result U :=
  match m with
  | inl e => inl e
  | inr v => k v
  end.

Declare Scope py_scope.
Delimit Scope py_scope with py.
Notation "'do' x <- m ; k" := (bind m (fun x => k))
  (at level 10, x pattern, m at level 100, k at level 200) : py_scope.
Open Scope py_scope.

(** [seq[i]] on a Python list. *)
Definition getitem {T} (l : list T) (i : nat) : result T :=
  match l !! i with
  | Some v => Ok v
  | None => Raise IndexError
  end.

(** [for x in xs: st = body(st, x)], stopping at the first exception. *)
Fixpoint for_range {S} (body : S → nat → result S) (xs : list nat) (st : S)
  : result S :=
  match xs with
  | [] => Ok st
  | x :: xs' => do st' <- body st x; for_range body xs' st'
  end.

(** ** NumPy arrays *)

Module Numpy.

(** A 2-D array: [shape = (shape0, shape1)], data row by row. *)
Record ndarray2 (T : Type) : Type := Ndarray2 {
  shape0 : nat;
  shape1 : nat;
  rows : list (list T)
}.
Arguments Ndarray2 {T} _ _ _.
Arguments shape0 {T} _.
Arguments shape1 {T} _.
Arguments rows {T} _.

(** A 3-D array: [shape = (dim0, dim1, dim2)]. *)
Record ndarray3 (T : Type) : Type := Ndarray3 {
  dim0 : nat;
  dim1 : nat;
  dim2 : nat;
  planes : list (list (list T))
}.
Arguments Ndarray3 {T} _ _ _ _.
Arguments dim0 {T} _.
Arguments dim1 {T} _.
Arguments dim2 {T} _.
Arguments planes {T} _.

(** Every array NumPy builds has data that fits its shape. *)
Definition wf2 {T} (a : ndarray2 T) : Prop :=
  length (rows a) = shape0 a ∧ Forall (λ r, length r = shape1 a) (rows a).

#[global] Instance wf2_dec {T} (a : ndarray2 T) : Decision (wf2 a).
Proof. unfold wf2. apply _. Defined.

Section arrays.
Context {T : Type}.

(** [np.zeros((b, f, t))] and [np.zeros((b, l))]. *)
Definition zeros3 (zero : T) (b f t : nat) : ndarray3 T :=
  Ndarray3 b f t (replicate b (replicate f (replicate t zero))).

Definition zeros2 (zero : T) (b l : nat) : ndarray2 T :=
  Ndarray2 b l (replicate b (replicate l zero)).

(** Broadcasting of one axis of the assigned value to the target:
    the sizes agree, or the source has size one and is repeated. *)
Definition broadcasts (src dst : nat) : bool :=
  bool_decide (src = dst) || bool_decide (src = 1).

(** The source along one axis as the target sees it: itself when the
    sizes agree, its one element repeated when it has size one. (Only
    called after [broadcasts] has accepted the sizes; on other sources
    nothing is repeated.) *)
Definition stretch {U} (n : nat) (l : list U) : list U :=
  if decide (length l = n) then l
  else match l with
       | [v] => replicate n v
       | _ => l
       end.

(** The new contents of a target row [dst] after [dst[:w] = src]. *)
Definition write_row (w : nat) (src dst : list T) : list T :=
  stretch w src ++ drop w dst.

(** The new contents of a target plane after [plane[:, :w] = src]. *)
Definition write_plane (f w : nat) (src : list (list T))
    (plane : list (list T)) : list (list T) :=
  zip_with (write_row w) (stretch f src) plane.

(** [inputs[x, :, :stop] = tensor[:, :]]. A slice bound past the end of
    the axis is clipped to it. *)
Definition setitem_plane (inputs : ndarray3 T) (x stop : nat)
    (tensor : ndarray2 T) : result (ndarray3 T) :=
  match planes inputs !! x with
  | None => Raise IndexError
  | Some plane =>
      let w := stop `min` dim2 inputs in
      if broadcasts (shape0 tensor) (dim1 inputs)
         && broadcasts (shape1 tensor) w
      then Ok (Ndarray3 (dim0 inputs) (dim1 inputs) (dim2 inputs)
                 (<[x := write_plane (dim1 inputs) w (rows tensor) plane]>
                    (planes inputs)))
      else Raise ValueError
  end.

(** [labels[x, :stop] = target[:]] for a 1-D [target]. *)
Definition setitem_row (labels : ndarray2 T) (x stop : nat)
    (target : list T) : result (ndarray2 T) :=
  match rows labels !! x with
  | None => Raise IndexError
  | Some row =>
      let w := stop `min` shape1 labels in
      if broadcasts (length target) w
      then Ok (Ndarray2 (shape0 labels) (shape1 labels)
                 (<[x := write_row w target row]> (rows labels)))
      else Raise ValueError
  end.
End arrays.

End Numpy.
Import Numpy.

(** ** [sorted(l, key=key, reverse=True)]

    Python's sort is stable, also with [reverse=True]: elements with equal
    keys keep their original order. A stable sort's result is determined by
    its input, so insertion from the right describes it. *)

Fixpoint insert_desc {T} (key : T → nat) (x : T) (l : list T) : list T :=
  match l with
  | [] => [x]
  | y :: l' =>
      if decide (key x < key y) then y :: insert_desc key x l' else x :: l
  end.

Definition sorted_reverse {T} (key : T → nat) (l : list T) : list T :=
  foldr (insert_desc key) [] l.

(** The order of a list sorted that way: no key grows along the list. *)
Definition desc {T} (key : T → nat) : relation T := λ x y, key y ≤ key x.

(** ** data_utils/reader.py, utils/data.py *)

Module Reader.

(** *** Label conversion in [PPASRDataset.__getitem__] *)

(** [dict([(labels[i], i) for i in range(len(labels))])]: a later pair
    replaces an earlier one with the same key. *)
Definition make_vocabulary (labels : list ascii) : gmap ascii Z :=
  foldl (λ m p, <[p.2 := Z.of_nat p.1]> m) ∅ (imap pair labels).

(** Truth value of an element of the list given to [filter(None, ...)]:
    [None] and the integer 0 are false. *)
Definition truthy (v : option Z) : bool :=
  match v with
  | None => false
  | Some i => negb (i =? 0)%Z
  end.

(** [list(filter(None, [self.vocabulary.get(x) for x in transcript]))],
    then [np.array(..., dtype='int32')]: the elements that remain are
    integers (vocabulary indices, far below 2^31). *)
Definition convert_transcript (vocabulary : gmap ascii Z)
    (transcript : string) : list Z :=
  omap id
    (base.filter (λ v, truthy v = true)
       ((λ x, vocabulary !! x) <$> list_ascii_of_string transcript)).

(** *** [collate_fn] *)

(** A sample: the feature matrix [(F, T)] (float32) and the transcript
    (1-D int32). The returned tuple: [inputs], [labels], [input_lens],
    [label_lens]. The element type [A] of the features is left open: the
    code moves the elements and does no arithmetic on them, and an
    assignment of float32 into float32 (of int32 into int32) stores the
    element as it is. *)
Abbreviation sample A := (ndarray2 A * list Z)%type.
Abbreviation batch_out A :=
  (ndarray3 A * ndarray2 Z * list nat * list nat)%type.

Section collate.
Context {A : Type} (zero : A).

(** One turn of [for x in range(batch_size)]. *)
Definition collate_step (batch : list (sample A)) (st : batch_out A) (x : nat)
  : result (batch_out A) :=
  let '(inputs, labels, input_lens, label_lens) := st in
  do sample <- getitem batch x;
  let tensor := sample.1 in
  let target := sample.2 in
  let seq_length := shape1 tensor in
  let label_length := length target in
  do inputs <- setitem_plane inputs x seq_length tensor;
  do labels <- setitem_row labels x label_length target;
  Ok (inputs, labels, input_lens ++ [seq_length],
      label_lens ++ [length target]).

Definition collate_fn (batch : list (sample A)) : result (batch_out A) :=
  let batch := sorted_reverse (λ sample, shape1 sample.1) batch in
  do b0 <- getitem batch 0;
  let freq_size := shape0 b0.1 in
  let max_audio_length := shape1 b0.1 in
  let batch_size := length batch in
  let batch_temp := sorted_reverse (λ sample, length sample.2) batch in
  do t0 <- getitem batch_temp 0;
  let max_label_length := length t0.2 in
  let inputs := zeros3 zero batch_size freq_size max_audio_length in
  let labels := zeros2 0%Z batch_size max_label_length in
  for_range (collate_step batch) (seq 0 batch_size)
    (inputs, labels, [], []).

(** What the loop leaves for one sample in arrays of shape [(_, F, T)]
    and [(_, L)] that were zero in that sample's row, and when NumPy
    accepts the two assignments. *)
Definition row_ok (F T L : nat) (s : sample A) : bool :=
  broadcasts (shape0 s.1) F
  && broadcasts (shape1 s.1) (shape1 s.1 `min` T)
  && broadcasts (length s.2) (length s.2 `min` L).

Definition plane_of (F T : nat) (s : sample A) : list (list A) :=
  write_plane F (shape1 s.1 `min` T) (rows s.1)
    (replicate F (replicate T zero)).

Definition label_row_of (L : nat) (s : sample A) : list Z :=
  write_row (length s.2 `min` L) s.2 (replicate L 0%Z).

(** The batch built from the samples [b] taken in the order of [b]. *)
Definition collated (F T L : nat) (b : list (sample A)) : batch_out A :=
  (Ndarray3 (length b) F T (plane_of F T <$> b),
   Ndarray2 (length b) L (label_row_of L <$> b),
   (λ s, shape1 s.1) <$> b,
   (λ s, length s.2) <$> b).

(** The batch [out] lists the samples of [b] in the order of [b]:
    entry [i] of the two length arrays is the true length of [b[i]], and
    row [i] of [labels] and of [inputs] starts with the data of [b[i]]
    (for [inputs]: when the sample has the batch's number of feature
    rows, so that no single row is repeated). *)
Definition lists_in_order (b : list (sample A)) (out : batch_out A) : Prop :=
  let '(inputs, labels, input_lens, label_lens) := out in
  input_lens = (λ s, shape1 s.1) <$> b ∧
  label_lens = (λ s, length s.2) <$> b ∧
  ∀ i s, b !! i = Some s →
    (∃ row, rows labels !! i = Some row ∧ take (length s.2) row = s.2) ∧
    (wf2 s.1 → shape0 s.1 = dim1 inputs →
     ∃ plane, planes inputs !! i = Some plane ∧
              take (shape1 s.1) <$> plane = rows s.1).

End collate.

(** Small samples with integer features. *)
Module Examples.
Definition f_short : ndarray2 Z := Ndarray2 2 1 [[5]; [6]]%Z.
Definition f_long : ndarray2 Z := Ndarray2 2 2 [[1; 2]; [3; 4]]%Z.
Definition f_thin : ndarray2 Z := Ndarray2 1 1 [[7]]%Z.

Definition short_first : list (sample Z) :=
  [(f_short, [1; 2; 3]%Z); (f_long, [9]%Z)].
Definition long_first : list (sample Z) :=
  [(f_long, [9]%Z); (f_short, [1; 2; 3]%Z)].
Definition mixed_F : list (sample Z) :=
  [(f_long, [9]%Z); (f_thin, [])].

(** What [collate_fn] returns on [short_first] and on [mixed_F]. *)
Definition short_first_out : batch_out Z :=
  (Ndarray3 2 2 2 [[[1; 2]; [3; 4]]; [[5; 0]; [6; 0]]]%Z,
   Ndarray2 2 3 [[9; 0; 0]; [1; 2; 3]]%Z, [2; 1], [1; 3]).
Definition mixed_F_out : batch_out Z :=
  (Ndarray3 2 2 2 [[[1; 2]; [3; 4]]; [[7; 0]; [7; 0]]]%Z,
   Ndarray2 2 1 [[9]; [0]]%Z, [2; 1], [1; 0]).

Definition hello_vocabulary : gmap ascii Z :=
  {[ "h"%char := 0%Z; "e"%char := 1%Z; "l"%char := 2%Z; "o"%char := 3%Z ]}.
End Examples.

End Reader.

(** ** ppasr/infer_utils/inference_predictor.py *)

Module Predictor.

(** An n-dimensional array: its shape and its elements in row-major
    order. *)
Record tensor (R : Type) : Type := Tensor {
  t_shape : list nat;
  t_data : list R
}.
Arguments Tensor {R} _ _.
Arguments t_shape {R} _.
Arguments t_data {R} _.

(** An input handle of the engine: the shape last given to [reshape] and
    the array last given to [copy_from_cpu]. *)
Record handle (R : Type) : Type := Handle {
  h_shape : list nat;
  h_data : option (tensor R)
}.
Arguments Handle {R} _ _.
Arguments h_shape {R} _.
Arguments h_data {R} _.

Definition reshape {R} (shape : list nat) (h : handle R) : handle R :=
  Handle shape (h_data h).

Definition copy_from_cpu {R} (a : tensor R) (h : handle R) : handle R :=
  Handle (h_shape h) (Some a).

(** The fields of [self] that [predict], [predict_chunk] and
    [reset_stream] read or write. The two state handles are created by
    [__init__] for the streaming model only, and are touched for that
    model only. *)
Record InferencePredictor (R : Type) : Type := Build_InferencePredictor {
  use_model : string;
  num_rnn_layers : nat;          (* configs.encoder_conf.num_rnn_layers *)
  rnn_size : nat;                (* configs.encoder_conf.rnn_size *)
  output_state_h : option (tensor R);
  output_state_c : option (tensor R);
  speech_data_handle : handle R;
  speech_lengths_handle : handle R;
  init_state_h_box_handle : handle R;
  init_state_c_box_handle : handle R
}.
Arguments Build_InferencePredictor {R} _ _ _ _ _ _ _ _ _.
Arguments use_model {R} _.
Arguments num_rnn_layers {R} _.
Arguments rnn_size {R} _.
Arguments output_state_h {R} _.
Arguments output_state_c {R} _.
Arguments speech_data_handle {R} _.
Arguments speech_lengths_handle {R} _.
Arguments init_state_h_box_handle {R} _.
Arguments init_state_c_box_handle {R} _.

(** [__init__], for model files that exist: no recurrent state is held, and
    the handles obtained from the engine hold nothing yet. The arguments are
    [use_model] and the two values read from [configs.encoder_conf]. *)
Definition init {R} (use_model : string) (num_rnn_layers rnn_size : nat)
  : InferencePredictor R :=
  Build_InferencePredictor use_model num_rnn_layers rnn_size None None
    (Handle [] None) (Handle [] None) (Handle [] None) (Handle [] None).

Section session.
Context {R : Type}.
(** The value 0.0, the two [astype] conversions, and the engine: what
    [predictor.run()] leaves in the output handles, in the order of
    [output_names], given the input handles (the state handles exist
    for the streaming model only), or the exception it raises. *)
Context (zero : R).
Context (astype_float32 astype_int64 : tensor R → tensor R).
Context (run : handle R → handle R → option (handle R * handle R) →
               result (list (tensor R))).

Abbreviation self_t := (InferencePredictor R).

(** Attribute assignment. *)
Definition set_output_state_h (v : option (tensor R)) (s : self_t) : self_t :=
  Build_InferencePredictor (use_model s) (num_rnn_layers s) (rnn_size s)
    v (output_state_c s) (speech_data_handle s) (speech_lengths_handle s)
    (init_state_h_box_handle s) (init_state_c_box_handle s).

Definition set_output_state_c (v : option (tensor R)) (s : self_t) : self_t :=
  Build_InferencePredictor (use_model s) (num_rnn_layers s) (rnn_size s)
    (output_state_h s) v (speech_data_handle s) (speech_lengths_handle s)
    (init_state_h_box_handle s) (init_state_c_box_handle s).

(** A method call on one of the handles. *)
Definition on_speech_data (f : handle R → handle R) (s : self_t) : self_t :=
  Build_InferencePredictor (use_model s) (num_rnn_layers s) (rnn_size s)
    (output_state_h s) (output_state_c s) (f (speech_data_handle s))
    (speech_lengths_handle s)
    (init_state_h_box_handle s) (init_state_c_box_handle s).

Definition on_speech_lengths (f : handle R → handle R) (s : self_t) : self_t :=
  Build_InferencePredictor (use_model s) (num_rnn_layers s) (rnn_size s)
    (output_state_h s) (output_state_c s) (speech_data_handle s)
    (f (speech_lengths_handle s))
    (init_state_h_box_handle s) (init_state_c_box_handle s).

Definition on_init_state_h_box (f : handle R → handle R) (s : self_t) : self_t :=
  Build_InferencePredictor (use_model s) (num_rnn_layers s) (rnn_size s)
    (output_state_h s) (output_state_c s) (speech_data_handle s)
    (speech_lengths_handle s)
    (f (init_state_h_box_handle s)) (init_state_c_box_handle s).

Definition on_init_state_c_box (f : handle R → handle R) (s : self_t) : self_t :=
  Build_InferencePredictor (use_model s) (num_rnn_layers s) (rnn_size s)
    (output_state_h s) (output_state_c s) (speech_data_handle s)
    (speech_lengths_handle s)
    (init_state_h_box_handle s) (f (init_state_c_box_handle s)).

(** Methods run on [self], change it as they go, and either return a
    value or raise; what was assigned before an exception stays. *)
Definition py (T : Type) : Type := self_t → self_t * result T.

Definition ret {T} (v : T) : py T := λ s, (s, Ok v).
Definition lift {T} (r : result T) : py T := λ s, (s, r).
Definition get : py self_t := λ s, (s, Ok s).
Definition modify (f : self_t → self_t) : py unit := λ s, (f s, Ok tt).

Definition pbind {T U} (m : py T) (k : T → py U) : py U :=
  λ s, match m s with
       | (s', inl e) => (s', inl e)
       | (s', inr v) => k v s'
       end.

Notation "'let!' x := m 'in' k" := (pbind m (λ x, k))
  (at level 10, x pattern, m at level 100, k at level 200).
Notation "m ;; k" := (pbind m (λ _, k))
  (at level 100, k at level 200, right associativity).

(** [np.zeros(shape=..., dtype=np.float32)] *)
Definition zeros (shape : list nat) : tensor R :=
  Tensor shape (replicate (foldr Nat.mul 1 shape) zero).

(** [a.shape[i]] *)
Definition shape_at (a : tensor R) (i : nat) : py nat :=
  lift (getitem (t_shape a) i).

(** The array held by a state attribute, for [.shape] and
    [copy_from_cpu]; neither works on [None]. *)
Definition held (o : option (tensor R)) : py (tensor R) :=
  match o with
  | Some a => ret a
  | None => lift (Raise AttributeError)
  end.

Definition is_None {T} (o : option T) : bool :=
  match o with
  | None => true
  | Some _ => false
  end.

Definition streaming (s : self_t) : bool :=
  bool_decide (use_model s = "deepspeech2_online"%string).

(** [self.predictor.run()] *)
Definition predictor_run : py (list (tensor R)) :=
  λ s, (s, run (speech_data_handle s) (speech_lengths_handle s)
               (if streaming s
                then Some (init_state_h_box_handle s,
                           init_state_c_box_handle s)
                else None)).

Definition predict (speech speech_lengths : tensor R) : py (tensor R) :=
  let! b := shape_at speech 0 in
  let! f := shape_at speech 1 in
  let! t := shape_at speech 2 in
  modify (on_speech_data (reshape [b; f; t]));;
  let! b := shape_at speech 0 in
  modify (on_speech_lengths (reshape [b]));;
  modify (on_speech_data (copy_from_cpu speech));;
  modify (on_speech_lengths (copy_from_cpu speech_lengths));;
  let! self := get in
  (if streaming self then
     let! b := shape_at speech 0 in
     let init_state_h_box :=
       zeros [num_rnn_layers self; b; rnn_size self] in
     modify (on_init_state_h_box (reshape (t_shape init_state_h_box)));;
     modify (on_init_state_h_box (copy_from_cpu init_state_h_box));;
     modify (on_init_state_c_box (reshape (t_shape init_state_h_box)));;
     modify (on_init_state_c_box (copy_from_cpu init_state_h_box))
   else ret tt);;
  let! outputs := predictor_run in
  let! output_data := lift (getitem outputs 0) in
  ret output_data.

Definition predict_chunk (x_chunk x_chunk_lens : tensor R)
  : py (tensor R * tensor R) :=
  let! b := shape_at x_chunk 0 in
  let! f := shape_at x_chunk 1 in
  let! t := shape_at x_chunk 2 in
  modify (on_speech_data (reshape [b; f; t]));;
  let! b := shape_at x_chunk 0 in
  modify (on_speech_lengths (reshape [b]));;
  modify (on_speech_data (copy_from_cpu (astype_float32 x_chunk)));;
  modify (on_speech_lengths (copy_from_cpu (astype_int64 x_chunk_lens)));;
  let! self := get in
  (if streaming self && is_None (output_state_h self) then
     let! b := shape_at x_chunk 0 in
     modify (set_output_state_h
               (Some (zeros [num_rnn_layers self; b; rnn_size self])));;
     let! b := shape_at x_chunk 0 in
     modify (set_output_state_c
               (Some (zeros [num_rnn_layers self; b; rnn_size self])))
   else ret tt);;
  let! self := get in
  (if streaming self then
     let! h := held (output_state_h self) in
     modify (on_init_state_h_box (reshape (t_shape h)));;
     let! self := get in
     let! h := held (output_state_h self) in
     modify (on_init_state_h_box (copy_from_cpu h));;
     let! self := get in
     let! c := held (output_state_c self) in
     modify (on_init_state_c_box (reshape (t_shape c)));;
     let! self := get in
     let! c := held (output_state_c self) in
     modify (on_init_state_c_box (copy_from_cpu c))
   else ret tt);;
  let! outputs := predictor_run in
  let! output_chunk_probs := lift (getitem outputs 0) in
  let! output_lens := lift (getitem outputs 1) in
  let! output_state_h := lift (getitem outputs 2) in
  modify (set_output_state_h (Some output_state_h));;
  let! output_state_c := lift (getitem outputs 3) in
  modify (set_output_state_c (Some output_state_c));;
  ret (output_chunk_probs, output_lens).

Definition reset_stream : py unit :=
  modify (set_output_state_h None);;
  modify (set_output_state_c None).

(** The two states of a session: no recurrent state held, or the state
    of the chunks so far. *)
Definition Idle (s : self_t) : Prop :=
  output_state_h s = None ∧ output_state_c s = None.

Definition Active (s : self_t) : Prop :=
  is_Some (output_state_h s) ∧ is_Some (output_state_c s).

(** A computation that leaves both state attributes as they were,
    whether it returns or raises. *)
Definition keeps_stream_state {T} (m : py T) : Prop :=
  ∀ s, output_state_h (m s).1 = output_state_h s ∧
       output_state_c (m s).1 = output_state_c s.

End session.

(** A streaming session as [__init__] leaves it, small arrays, and two
    engines: one whose [run()] always raises, one that accepts every
    input and returns four outputs. *)
Module Examples.
Definition fresh : InferencePredictor Z := init "deepspeech2_online" 1 1.

Definition chunk1 : tensor Z := Tensor [1; 1; 1] [3%Z].
Definition chunk1_lens : tensor Z := Tensor [1] [1%Z].
Definition chunk2 : tensor Z := Tensor [2; 1; 1] [3%Z; 4%Z].
Definition chunk2_lens : tensor Z := Tensor [2] [1%Z; 1%Z].

Definition probs : tensor Z := Tensor [1; 1; 2] [0%Z; 1%Z].
Definition lens : tensor Z := Tensor [1] [1%Z].
Definition new_h : tensor Z := Tensor [1; 1; 1] [4%Z].
Definition new_c : tensor Z := Tensor [1; 1; 1] [5%Z].

Definition as_is (a : tensor Z) : tensor Z := a.

Definition failing_run (speech speech_lengths : handle Z)
    (state : option (handle Z * handle Z)) : result (list (tensor Z)) :=
  Raise EngineError.

Definition lenient_run (speech speech_lengths : handle Z)
    (state : option (handle Z * handle Z)) : result (list (tensor Z)) :=
  Ok [probs; lens; new_h; new_c].

(** The session after one chunk of batch size 1 on the lenient
    engine. *)
Definition after_chunk1 : InferencePredictor Z :=
  (predict_chunk 0%Z as_is as_is lenient_run chunk1 chunk1_lens fresh).1.
End Examples.

End Predictor.

(** ** Python strings and sequences

    Characters are code points below 256. *)

Module Py.

(** [seq[i]] for a Python integer [i]: a negative index counts from the
    end. *)
Definition getitem_int {T} (l : list T) (i : Z) : result T :=
  let j := if decide (i < 0)%Z then (i + Z.of_nat (length l))%Z else i in
  if decide (j < 0)%Z then Raise IndexError else getitem l (Z.to_nat j).

(** [seq[-1]] *)
Definition getitem_last {T} (l : list T) : result T :=
  match last l with
  | Some v => Ok v
  | None => Raise IndexError
  end.

(** The characters that [str.strip()] removes: tab to carriage return,
    the four separators 28 to 31, the space, and NEL and the no-break space
    of Latin-1. *)
Definition isspace (c : ascii) : bool :=
  let n := nat_of_ascii c in
  (9 <=? n) && (n <=? 13) || (28 <=? n) && (n <=? 32)
  || (n =? 133) || (n =? 160).

Fixpoint lstrip (l : list ascii) : list ascii :=
  match l with
  | [] => []
  | c :: l' => if isspace c then lstrip l' else l
  end.

Definition rstrip (l : list ascii) : list ascii := rev (lstrip (rev l)).

(** [s.strip()] *)
Definition strip (s : string) : string :=
  string_of_list_ascii (rstrip (lstrip (list_ascii_of_string s))).

(** [s.split(sep)] for a separator of one character: the pieces between
    the separators, empty pieces included; never the empty list. *)
Fixpoint split (sep : ascii) (s : string) : list string :=
  match s with
  | EmptyString => [EmptyString]
  | String c s' =>
      if decide (c = sep) then EmptyString :: split sep s'
      else match split sep s' with
           | p :: ps => String c p :: ps
           | [] => [String c EmptyString]
           end
  end.

(** [sep.join(pieces)] *)
Fixpoint join (sep : ascii) (pieces : list string) : string :=
  match pieces with
  | [] => EmptyString
  | [p] => p
  | p :: ps => p +:+ String sep (join sep ps)
  end.

(** What the pattern [\d] matches. *)
Definition isdigit (c : ascii) : bool :=
  let n := nat_of_ascii c in (48 <=? n) && (n <=? 57).

(** The pieces of [l] between the characters that are no digits, empty
    pieces included. *)
Fixpoint digit_runs (l : list ascii) : list (list ascii) :=
  match l with
  | [] => [[]]
  | c :: l' =>
      if isdigit c
      then match digit_runs l' with
           | r :: rs => (c :: r) :: rs
           | [] => [[c]]
           end
      else [] :: digit_runs l'
  end.

(** [re.findall(r'\d+', s)]: the maximal runs of digits, from left to
    right. *)
Definition findall_digits (s : string) : list (list ascii) :=
  base.filter (λ r, r ≠ []) (digit_runs (list_ascii_of_string s)).

(** [int(ds)] for a string of digits. *)
Definition int_of_digits (ds : list ascii) : nat :=
  foldl (λ acc c, 10 * acc + (nat_of_ascii c - 48)) 0 ds.

(** ['%d' % n] for [n >= 0]. *)
Definition format_d (n : nat) : string :=
  NilEmpty.string_of_uint (Nat.to_uint n).

(** [os.path.join(a, b)] (POSIX). *)
Definition path_join (a b : string) : string :=
  match b with
  | String "/" _ => b
  | _ =>
      match last (list_ascii_of_string a) with
      | None => b
      | Some "/"%char => a +:+ b
      | Some _ => a +:+ String "/" b
      end
  end.

End Py.

(** ** data_utils/reader.py: [PPASRDataset] *)

Module ReaderDataset.
Import Numpy Reader Py.

(** A line of the manifest as [json.loads] returns it: an object with the
    three fields that [__init__] reads. A duration is a JSON number; the
    comparisons of Python numbers are those of the rationals. *)
Record manifest_line : Type := ManifestLine {
  audio_path : string;
  text : string;
  duration : Qc
}.

(** The number -1. *)
Definition minus_one : Qc :=
  Qcanon.Qcopp (Qcanon.Q2Qc (QArith_base.Qmake 1 1)).

(** The fields of [self]; [F] is the type of the normalisation values,
    which the class stores and does not use. *)
Record PPASRDataset (F : Type) : Type := Build_PPASRDataset {
  mean : option F;
  std : option F;
  data_list : list (string * string);
  vocabulary : gmap ascii Z
}.
Arguments Build_PPASRDataset {F} _ _ _ _.
Arguments mean {F} _.
Arguments std {F} _.
Arguments data_list {F} _.
Arguments vocabulary {F} _.

(** [__init__], from the parsed lines of the manifest and the list of
    symbols read from the vocabulary file. *)
Definition init {F} (lines : list manifest_line) (labels : list ascii)
    (mean std : option F) (min_duration max_duration : Qc)
  : PPASRDataset F :=
  let data_list :=
    foldl (λ data_list line,
             if decide (Qclt (duration line) min_duration) then data_list
             else if bool_decide (max_duration ≠ minus_one)
                     && bool_decide (Qclt max_duration (duration line))
             then data_list
             else data_list ++ [(audio_path line, text line)])
      [] lines in
  Build_PPASRDataset mean std data_list (make_vocabulary labels).

Section methods.
Context {F A Audio : Type}.
(** [self.audio_featurizer.load_audio_file] and [.featurize]: the module
    data_utils/audio_featurizer is outside these sources. *)
Context (load_audio_file : string → result Audio).
Context (featurize : Audio → result (ndarray2 A)).

(** [__getitem__] *)
Definition getitem_sample (self : PPASRDataset F) (idx : Z)
  : result (sample A) :=
  do entry <- getitem_int (data_list self) idx;
  let wav_path := entry.1 in
  let transcript := entry.2 in
  do audio <- load_audio_file wav_path;
  do feature <- featurize audio;
  let transcript := convert_transcript (vocabulary self) transcript in
  Ok (feature, transcript).

(** [__len__] *)
Definition len (self : PPASRDataset F) : nat := length (data_list self).

End methods.

(** The lines that [__init__] keeps. *)
Definition within (min_duration max_duration : Qc) (line : manifest_line)
  : Prop :=
  Qcle min_duration (duration line) ∧
  (max_duration = minus_one ∨ Qcle (duration line) max_duration).

#[global] Instance within_dec min_duration max_duration line :
  Decision (within min_duration max_duration line).
Proof. unfold within. apply _. Defined.

End ReaderDataset.

(** ** utils/data.py: [PPASRDataset] *)

Module DataDataset.
Import Numpy Reader Py.

Record PPASRDataset (F : Type) : Type := Build_PPASRDataset {
  mean : option F;
  std : option F;
  idx : list (list string);
  vocabulary : gmap ascii Z
}.
Arguments Build_PPASRDataset {F} _ _ _ _.
Arguments mean {F} _.
Arguments std {F} _.
Arguments idx {F} _.
Arguments vocabulary {F} _.

(** [__init__], from the lines that [readlines()] returns and the list of
    symbols read from the vocabulary file. *)
Definition init {F} (lines : list string) (labels : list ascii)
    (mean std : option F) : PPASRDataset F :=
  Build_PPASRDataset mean std
    ((λ x, split "," (strip x)) <$> lines)
    (make_vocabulary labels).

Section methods.
Context {F A : Type}.
(** [load_audio_mfcc]: it reads a file and computes in floating point. *)
Context (load_audio_mfcc :
           string → option F → option F → result (ndarray2 A)).

(** [__getitem__]; the assignment to three names raises [ValueError]
    unless the entry has three fields. *)
Definition getitem_sample (self : PPASRDataset F) (i : Z)
  : result (sample A) :=
  do entry <- getitem_int (idx self) i;
  match entry with
  | [wav_path; _; transcript] =>
      do mfccs <- load_audio_mfcc wav_path (mean self) (std self);
      let transcript := convert_transcript (vocabulary self) transcript in
      Ok (mfccs, transcript)
  | _ => Raise ValueError
  end.

(** [__len__] *)
Definition len (self : PPASRDataset F) : nat := length (idx self).

End methods.

End DataDataset.

(** ** train.py: the checkpoint directory and the epoch to resume from *)

Module Train.
Import Py.

(** [model_path] in [save_model], for [epoch >= 0]. *)
Definition model_path (save_model : string) (num_epoch : Z) (epoch : nat)
  : string :=
  let model_path := path_join save_model ("epoch_" +:+ format_d epoch) in
  if decide (Z.of_nat epoch = num_epoch - 1)%Z
  then path_join save_model "step_final"
  else model_path.

(** [last_epoch] in [train]:
    [int(re.findall(r'\d+', args.resume)[-1]) if args.resume is not None
     else 0]. *)
Definition last_epoch (resume : option string) : result nat :=
  match resume with
  | Some resume =>
      do digits <- getitem_last (findall_digits resume);
      Ok (int_of_digits digits)
  | None => Ok 0
  end.

End Train.

(** ** More small inputs *)

Module MoreExamples.
Import Numpy Reader Predictor Predictor.Examples Reader.Examples.

(** An array of two dimensions, and an engine that returns three
    outputs. *)
Definition flat : tensor Z := Tensor [2; 2] [1; 2; 3; 4]%Z.

Definition three_run (speech speech_lengths : handle Z)
    (state : option (handle Z * handle Z)) : result (list (tensor Z)) :=
  Ok [probs; lens; new_h].

(** A vocabulary file, a manifest of three lines, a list file of two
    lines, and featurizers that return [f_long] for every path. *)
Definition symbols : list ascii := ["_"; "h"; "e"; "l"; "o"]%char.



Definition newline : string := String "010" EmptyString.

Definition list_file : list string :=
  ["a.wav,3.5,hello" +:+ newline; newline; "b.wav,2,oh, hello" +:+ newline].

Definition load_audio_file (path : string) : result unit := Ok ().
Definition featurize (audio : unit) : result (ndarray2 Z) := Ok f_long.
Definition load_audio_mfcc (path : string) (mean std : option unit)
  : result (ndarray2 Z) := Ok f_long.

End MoreExamples.

(** * Properties *)

(** ** The stable descending sort *)

Section sorted_facts.
Context {T : Type} (key : T → nat).

Lemma insert_desc_perm x l : insert_desc key x l ≡ₚ x :: l.
Proof.
  induction l as [|y l IH]; simpl; [done|].
  case_decide; [|done].
  rewrite IH. apply Permutation_swap.
Qed.

Lemma sorted_reverse_perm l : sorted_reverse key l ≡ₚ l.
Proof.
  induction l as [|x l IH]; simpl; [done|].
  rewrite insert_desc_perm. by f_equiv.
Qed.

Lemma sorted_reverse_length l : length (sorted_reverse key l) = length l.
Proof. by rewrite sorted_reverse_perm. Qed.

Lemma sorted_reverse_nil_inv l : sorted_reverse key l = [] → l = [].
Proof.
  intros H. apply Permutation_nil_r. by rewrite <- H, sorted_reverse_perm.
Qed.

Lemma insert_desc_sorted x l :
  StronglySorted (desc key) l → StronglySorted (desc key) (insert_desc key x l).
Proof.
  induction 1 as [|y l Hl IH Hy]; simpl.
  - repeat constructor.
  - case_decide.
    + constructor; [done|].
      rewrite insert_desc_perm. constructor; [unfold desc; lia | done].
    + constructor; [by constructor|].
      constructor; [unfold desc; lia|].
      eapply Forall_impl; [exact Hy|]. unfold desc. intros; simpl in *; lia.
Qed.

Lemma sorted_reverse_sorted l : StronglySorted (desc key) (sorted_reverse key l).
Proof.
  induction l; simpl; [constructor | by apply insert_desc_sorted].
Qed.

Lemma insert_desc_head x l :
  Forall (λ y, key y ≤ key x) l → insert_desc key x l = x :: l.
Proof.
  destruct 1 as [|y l Hy _]; simpl; [done|].
  case_decide; [lia | done].
Qed.

Lemma sorted_reverse_id l : StronglySorted (desc key) l → sorted_reverse key l = l.
Proof.
  induction 1 as [|x l Hl IH Hx]; simpl; [done|].
  rewrite IH. by apply insert_desc_head.
Qed.

Lemma insert_desc_filter (P : T → Prop) `{!∀ y, Decision (P y)} x l :
  (∀ y, P y → P x → key y = key x) →
  base.filter P (insert_desc key x l) = base.filter P (x :: l).
Proof.
  intros HP. induction l as [|y l IH]; simpl; [done|].
  case_decide as Hlt; [|done].
  rewrite !filter_cons in *. rewrite IH.
  destruct (decide (P y)) as [Py|]; destruct (decide (P x)) as [Px|]; try done.
  specialize (HP _ Py Px). lia.
Qed.

(** Stability: the samples of one key keep their order. *)
Lemma sorted_reverse_stable k l :
  base.filter (λ y, key y = k) (sorted_reverse key l)
  = base.filter (λ y, key y = k) l.
Proof.
  induction l as [|x l IH]; simpl; [done|].
  rewrite insert_desc_filter by (intros; congruence).
  by rewrite !filter_cons, IH.
Qed.
End sorted_facts.

Lemma sorted_reverse_head_max {T} (key : T → nat) l x rest :
  sorted_reverse key l = x :: rest → Forall (λ y, key y ≤ key x) l.
Proof.
  intros H. rewrite <- (sorted_reverse_perm key l), H.
  pose proof (sorted_reverse_sorted key l) as Hs. rewrite H in Hs.
  apply StronglySorted_inv in Hs as [_ Hs]. by constructor.
Qed.

(** ** Slice assignment *)

Section numpy_facts.
Context {T : Type}.
Implicit Types (src dst : list T).

Lemma broadcasts_refl n : broadcasts n n = true.
Proof. unfold broadcasts. by rewrite bool_decide_eq_true_2. Qed.

Lemma broadcasts_false a b : broadcasts a b = false ↔ a ≠ b ∧ a ≠ 1.
Proof.
  unfold broadcasts.
  rewrite orb_false_iff, !bool_decide_eq_false. done.
Qed.

Lemma forallb_false_Exists {U} (f : U → bool) l :
  forallb f l = false ↔ Exists (λ x, f x = false) l.
Proof.
  induction l as [|x l IH]; simpl.
  - split; [done | by inversion 1].
  - by rewrite andb_false_iff, Exists_cons, IH.
Qed.

Lemma stretch_same {U} n (l : list U) : length l = n → stretch n l = l.
Proof. intros H. unfold stretch. by rewrite decide_True. Qed.

Lemma stretch_elem {U} n (l : list U) x : x ∈ stretch n l → x ∈ l.
Proof.
  unfold stretch. case_decide; [done|].
  destruct l as [|v [|??]]; try done.
  intros ->%elem_of_replicate_inv. set_solver.
Qed.

Lemma drop_write_row n zero src t :
  length src = n →
  drop n (write_row n src (replicate t zero)) = replicate (t - n) zero.
Proof.
  intros H. unfold write_row. rewrite stretch_same by done.
  rewrite drop_app_length' by done. by rewrite drop_replicate.
Qed.

Lemma take_write_row n src dst :
  length src = n → take n (write_row n src dst) = src.
Proof.
  intros H. unfold write_row. rewrite stretch_same by done.
  by rewrite take_app_length'.
Qed.

Lemma write_plane_pad F n t zero (a : ndarray2 T) :
  wf2 a → shape1 a = n →
  Forall (λ r, drop n r = replicate (t - n) zero)
    (write_plane F n (rows a) (replicate F (replicate t zero))).
Proof.
  intros [_ Hr] Hn. unfold write_plane. apply Forall_lookup_2.
  intros i r (src & dst & -> & Hsrc & Hdst)%lookup_zip_with_Some.
  apply lookup_replicate in Hdst as [-> _].
  apply drop_write_row.
  apply list_elem_of_lookup_2, stretch_elem in Hsrc.
  rewrite Forall_forall in Hr. rewrite <- Hn. by apply Hr.
Qed.

Lemma write_plane_data F n (a : ndarray2 T) plane :
  wf2 a → shape1 a = n → shape0 a = F → length plane = F →
  take n <$> write_plane F n (rows a) plane = rows a.
Proof.
  intros [H0 Hr] Hn HF Hp. unfold write_plane.
  rewrite stretch_same by congruence.
  rewrite Hn in Hr. rewrite <- H0 in HF. subst F. clear H0 Hn.
  revert plane Hp. induction Hr as [|r rs Hlen _ IH]; intros [|p plane] Hp;
    simplify_eq/=; [done|].
  f_equal; [by apply take_write_row | by apply IH].
Qed.
End numpy_facts.

(** ** [collate_fn] *)

Import Reader.

Section collate_facts.
Context {A : Type} (zero : A).
Implicit Types (batch : list (sample A)) (s : sample A).

Lemma collate_loop (b : list (sample A)) B F T L n : ∀ k P Lr il ll,
  length P = k → length Lr = k → k + n = length b →
  for_range (collate_step b) (seq k n)
    (Ndarray3 B F T (P ++ replicate n (replicate F (replicate T zero))),
     Ndarray2 B L (Lr ++ replicate n (replicate L 0%Z)), il, ll)
  = if forallb (row_ok F T L) (drop k b)
    then Ok (Ndarray3 B F T (P ++ (plane_of zero F T <$> drop k b)),
             Ndarray2 B L (Lr ++ (label_row_of L <$> drop k b)),
             il ++ ((λ s, shape1 s.1) <$> drop k b),
             ll ++ ((λ s, length s.2) <$> drop k b))
    else Raise ValueError.
Proof.
  induction n as [|n IH]; intros k P Lr il ll HP HL Hk.
  - rewrite drop_ge by lia. simpl. by rewrite !app_nil_r.
  - destruct (lookup_lt_is_Some_2 b k) as [s Hs]; [lia|].
    rewrite (drop_S _ _ _ Hs). cbn [seq for_range forallb fmap list_fmap].
    unfold collate_step at 1. unfold getitem. rewrite Hs. cbn [bind Ok].
    unfold setitem_plane. cbn [planes dim0 dim1 dim2 replicate].
    rewrite lookup_app_r by lia. replace (k - length P) with 0 by lia.
    cbn [lookup list_lookup].
    unfold row_ok at 1.
    destruct (broadcasts (shape0 s.1) F
            && broadcasts (shape1 s.1) (shape1 s.1 `min` T)) eqn:Hb1;
      cbn [bind Ok Raise andb]; [|done].
    unfold setitem_row. cbn [rows shape0 shape1].
    rewrite lookup_app_r by lia. replace (k - length Lr) with 0 by lia.
    cbn [lookup list_lookup].
    destruct (broadcasts (length s.2) (length s.2 `min` L)) eqn:Hb2;
      cbn [bind Ok Raise]; [|done].
    rewrite !insert_app_r_alt by lia.
    replace (k - length P) with 0 by lia.
    replace (k - length Lr) with 0 by lia.
    cbn [insert list_insert].
    rewrite !(cons_middle _ P), !(cons_middle _ Lr), !app_assoc.
    rewrite (IH (S k)); [|rewrite length_app; simpl; lia..|lia].
    rewrite <- !app_assoc. done.
Qed.

Abbreviation by_audio := (λ s : sample A, shape1 s.1).
Abbreviation by_label := (λ s : sample A, length s.2).

Lemma row_ok_max F T L (b : list (sample A)) :
  Forall (λ s, shape1 s.1 ≤ T) b → Forall (λ s, length s.2 ≤ L) b →
  forallb (row_ok F T L) b = forallb (λ s, broadcasts (shape0 s.1) F) b.
Proof.
  induction 1 as [|s b Hs _ IH]; [done|].
  intros [Hl Hb]%Forall_cons; simpl.
  rewrite IH by done. f_equal. unfold row_ok.
  rewrite !Nat.min_l, !broadcasts_refl by done.
  by rewrite !andb_true_r.
Qed.

(** [collate_fn] in one equation: the samples in sorted order. *)
Lemma collate_fn_sorted batch (b0 : sample A) rest :
  sorted_reverse by_audio batch = b0 :: rest →
  ∃ L, Forall (λ s, length s.2 ≤ L) (b0 :: rest) ∧
       Forall (λ s, shape1 s.1 ≤ shape1 b0.1) (b0 :: rest) ∧
       collate_fn zero batch =
         if forallb (λ s, broadcasts (shape0 s.1) (shape0 b0.1)) (b0 :: rest)
         then Ok (collated zero (shape0 b0.1) (shape1 b0.1) L (b0 :: rest))
         else Raise ValueError.
Proof.
  intros Hsort.
  destruct (sorted_reverse by_label (b0 :: rest)) as [|t0 trest] eqn:Ht.
  { by apply sorted_reverse_nil_inv in Ht. }
  pose proof (sorted_reverse_head_max _ _ _ _ Ht) as HL.
  assert (Forall (λ s, shape1 s.1 ≤ shape1 b0.1) (b0 :: rest)) as HT.
  { pose proof (sorted_reverse_head_max _ _ _ _ Hsort) as HT.
    by rewrite <- (sorted_reverse_perm by_audio batch), Hsort in HT. }
  exists (length t0.2). split_and!; [done..|].
  unfold collate_fn. cbv zeta. rewrite Hsort, Ht.
  cbn [getitem lookup list_lookup bind Ok].
  unfold zeros3, zeros2.
  pose proof (collate_loop (b0 :: rest) (length (b0 :: rest)) (shape0 b0.1)
    (shape1 b0.1) (length t0.2) (length (b0 :: rest)) 0 [] [] [] []) as Hloop.
  cbn [app drop] in Hloop. rewrite Hloop by done.
  by rewrite row_ok_max.
Qed.

Lemma collate_fn_nil : collate_fn zero [] = Raise IndexError.
Proof. done. Qed.

Lemma collate_fn_Ok_inv batch out :
  collate_fn zero batch = Ok out →
  ∃ (b0 : sample A) rest L,
    sorted_reverse by_audio batch = b0 :: rest ∧
    Forall (λ s, length s.2 ≤ L) (b0 :: rest) ∧
    Forall (λ s, shape1 s.1 ≤ shape1 b0.1) (b0 :: rest) ∧
    Forall (λ s, broadcasts (shape0 s.1) (shape0 b0.1) = true) (b0 :: rest) ∧
    out = collated zero (shape0 b0.1) (shape1 b0.1) L (b0 :: rest).
Proof.
  intros Hout.
  destruct (sorted_reverse by_audio batch) as [|b0 rest] eqn:Hsort.
  { apply sorted_reverse_nil_inv in Hsort as ->. done. }
  destruct (collate_fn_sorted _ _ _ Hsort) as (L & HL & HT & Heq).
  rewrite Hout in Heq.
  destruct (forallb _ _) eqn:HF in Heq; [|done].
  exists b0, rest, L. split_and!; try done.
  - apply Forall_forall. intros s Hs.
    rewrite forallb_forall in HF. apply HF. by apply list_elem_of_In.
  - by injection Heq.
Qed.

Lemma label_row_of_take L s :
  length s.2 ≤ L → take (length s.2) (label_row_of L s) = s.2.
Proof.
  intros H. unfold label_row_of. rewrite Nat.min_l by done.
  by apply take_write_row.
Qed.

Lemma label_row_of_drop L s :
  length s.2 ≤ L →
  drop (length s.2) (label_row_of L s) = replicate (L - length s.2) 0%Z.
Proof.
  intros H. unfold label_row_of. rewrite Nat.min_l by done.
  by apply drop_write_row.
Qed.

Lemma plane_of_take F T s :
  wf2 s.1 → shape1 s.1 ≤ T → shape0 s.1 = F →
  take (shape1 s.1) <$> plane_of zero F T s = rows s.1.
Proof.
  intros Hwf HT HF. unfold plane_of. rewrite Nat.min_l by done.
  apply write_plane_data; try done. by rewrite length_replicate.
Qed.

Lemma plane_of_drop F T s :
  wf2 s.1 → shape1 s.1 ≤ T →
  Forall (λ r, drop (shape1 s.1) r = replicate (T - shape1 s.1) zero)
    (plane_of zero F T s).
Proof.
  intros Hwf HT. unfold plane_of. rewrite Nat.min_l by done.
  by apply write_plane_pad.
Qed.

Lemma collated_in_order F T L (b : list (sample A)) :
  Forall (λ s, length s.2 ≤ L) b → Forall (λ s, shape1 s.1 ≤ T) b →
  lists_in_order b (collated zero F T L b).
Proof.
  intros HL HT. unfold collated, lists_in_order. split_and!; [done..|].
  intros i s Hi. cbn [rows planes dim1].
  rewrite !list_lookup_fmap, Hi. cbn [fmap option_fmap option_map].
  split.
  - eexists; split; [done|]. apply label_row_of_take.
    by eapply (Forall_lookup_1 _ _ _ _ HL).
  - intros Hwf HF. eexists; split; [done|]. apply plane_of_take; try done.
    by eapply (Forall_lookup_1 _ _ _ _ HT).
Qed.

(** C1 (amended). The batch returned by [collate_fn] lists the samples in
    the order of the input list sorted by descending feature length, the
    samples of equal feature length keeping their input order: row [i] of
    [inputs] and [labels] and entries [i] of [input_lens] and [label_lens]
    hold the data and the true lengths of the [i]-th sample of that order.
    That order is a permutation of the input list (no sample is lost or
    duplicated), and it is the input order when the input list is already
    in non-increasing feature length. *)
Theorem collate_fn_lists_sorted_order batch out :
  collate_fn zero batch = Ok out →
  let ordered := sorted_reverse by_audio batch in
  lists_in_order ordered out ∧
  ordered ≡ₚ batch ∧
  StronglySorted (desc by_audio) ordered ∧
  (∀ k, base.filter (λ s, shape1 s.1 = k) ordered
        = base.filter (λ s, shape1 s.1 = k) batch) ∧
  (StronglySorted (desc by_audio) batch → lists_in_order batch out).
Proof.
  intros Hout ordered.
  destruct (collate_fn_Ok_inv _ _ Hout) as (b0 & rest & L & Hs & HL & HT & _ & ->).
  assert (lists_in_order ordered
            (collated zero (shape0 b0.1) (shape1 b0.1) L (b0 :: rest))) as Hord.
  { unfold ordered. rewrite Hs. by apply collated_in_order. }
  split_and!.
  - done.
  - apply sorted_reverse_perm.
  - apply sorted_reverse_sorted.
  - intros k. apply (sorted_reverse_stable by_audio).
  - intros Hsorted. unfold ordered in Hord.
    by rewrite (sorted_reverse_id _ _ Hsorted) in Hord.
Qed.

Lemma stretch_length {U} n (l : list U) :
  broadcasts (length l) n = true → length (stretch n l) = n.
Proof.
  unfold broadcasts, stretch. intros H. case_decide; [done|].
  rewrite bool_decide_eq_false_2 in H by done.
  apply bool_decide_eq_true_1 in H.
  destruct l as [|v [|??]]; try done. simpl. by rewrite length_replicate.
Qed.

Lemma plane_of_shape F T s :
  wf2 s.1 → shape1 s.1 ≤ T → broadcasts (shape0 s.1) F = true →
  length (plane_of zero F T s) = F ∧
  Forall (λ r, length r = T) (plane_of zero F T s).
Proof.
  intros [H0 Hr] HT HF. unfold plane_of. rewrite Nat.min_l by done. split.
  - unfold write_plane.
    rewrite length_zip_with, length_replicate, stretch_length; [lia|].
    by rewrite H0.
  - apply Forall_lookup_2.
    intros i r (src & dst & -> & Hsrc & Hdst)%lookup_zip_with_Some.
    apply lookup_replicate in Hdst as [-> _].
    apply list_elem_of_lookup_2, stretch_elem in Hsrc.
    rewrite Forall_forall in Hr. specialize (Hr _ Hsrc).
    unfold write_row. rewrite stretch_same by done.
    rewrite length_app, length_drop, length_replicate. lia.
Qed.

(** C4. In every batch that [collate_fn] returns (the feature arrays being
    NumPy arrays, whose data fit their shape) the padded region is zero:
    for every row [i], with [n = input_lens[i]] and [m = label_lens[i]],
    [inputs[i, :, n:]] and [labels[i, m:]] hold zeros only; row [i] of
    [inputs] is a full [freq_size] by [max_audio_length] plane. *)
Theorem collate_fn_padding_zero batch inputs labels input_lens label_lens :
  Forall (λ s, wf2 s.1) batch →
  collate_fn zero batch = Ok (inputs, labels, input_lens, label_lens) →
  ∀ i, i < length batch →
    ∃ plane row n m,
      planes inputs !! i = Some plane ∧ input_lens !! i = Some n ∧
      length plane = dim1 inputs ∧
      Forall (λ r, length r = dim2 inputs) plane ∧
      Forall (λ r, Forall (λ v, v = zero) (drop n r)) plane ∧
      rows labels !! i = Some row ∧ label_lens !! i = Some m ∧
      Forall (λ v, v = 0%Z) (drop m row).
Proof.
  intros Hwf Hout i Hi.
  destruct (collate_fn_Ok_inv _ _ Hout)
    as (b0 & rest & L & Hs & HL & HT & HF & Heq).
  rewrite <- (sorted_reverse_perm by_audio batch), Hs in Hwf, Hi.
  destruct (lookup_lt_is_Some_2 _ _ Hi) as [s Hsi].
  pose proof (Forall_lookup_1 _ _ _ _ Hwf Hsi) as Hwfs.
  pose proof (Forall_lookup_1 _ _ _ _ HL Hsi) as HLs.
  pose proof (Forall_lookup_1 _ _ _ _ HT Hsi) as HTs.
  pose proof (Forall_lookup_1 _ _ _ _ HF Hsi) as HFs.
  cbn beta in Hwfs, HLs, HTs, HFs.
  unfold collated in Heq. simplify_eq. cbn [planes rows dim1 dim2].
  exists (plane_of zero (shape0 b0.1) (shape1 b0.1) s),
         (label_row_of L s), (shape1 s.1), (length s.2).
  rewrite !list_lookup_fmap, Hsi. cbn [fmap option_fmap option_map].
  destruct (plane_of_shape (shape0 b0.1) (shape1 b0.1) s) as [Hlen Hrows];
    try done.
  split_and!; try done.
  - eapply Forall_impl; [by apply plane_of_drop|].
    intros r ->. by apply Forall_replicate.
  - rewrite label_row_of_drop by done. by apply Forall_replicate.
Qed.

(** C7 (amended). [collate_fn] makes no check of its own on the feature
    dimensionality and has no [ShapeMismatchError]. On a non-empty batch
    it fails, with NumPy's broadcast [ValueError], exactly when some
    sample's number of feature rows is neither that of the first longest
    sample nor 1 (a single feature row is repeated over the rows of the
    batch); it returns a batch when all samples have the same number of
    feature rows. *)
Theorem collate_fn_shape_error batch (b0 : sample A) rest :
  sorted_reverse by_audio batch = b0 :: rest →
  (collate_fn zero batch = Raise ValueError ↔
     Exists (λ s, shape0 s.1 ≠ shape0 b0.1 ∧ shape0 s.1 ≠ 1) batch) ∧
  ((∀ s s', s ∈ batch → s' ∈ batch → shape0 s.1 = shape0 s'.1) →
     ∃ out, collate_fn zero batch = Ok out).
Proof.
  intros Hs. destruct (collate_fn_sorted _ _ _ Hs) as (L & _ & _ & Heq).
  assert (forallb (λ s, broadcasts (shape0 s.1) (shape0 b0.1)) (b0 :: rest)
          = false ↔
          Exists (λ s, shape0 s.1 ≠ shape0 b0.1 ∧ shape0 s.1 ≠ 1) batch)
    as Hno.
  { rewrite <- (sorted_reverse_perm by_audio batch), Hs.
    rewrite forallb_false_Exists.
    split; intros H; (eapply Exists_impl; [exact H|]); intros s;
      by rewrite broadcasts_false. }
  split.
  - rewrite <- Hno, Heq. by destruct (forallb _ _).
  - intros Hsame. rewrite Heq.
    destruct (forallb _ _) eqn:HF; [by eexists|].
    destruct Hno as [Hno _].
    apply Exists_exists in Hno as (s & Hin & Hne & _); [|done].
    destruct Hne. apply Hsame; [done|].
    rewrite <- (sorted_reverse_perm by_audio batch), Hs. by left.
Qed.

(** C10. [collate_fn] raises [IndexError], the exception of every
    out-of-range index or row write, on the empty list and on no other
    input: there it is raised by [batch[0]] on the sorted batch; on a
    non-empty list the call returns a batch or fails with NumPy's
    broadcast [ValueError]. *)
Theorem collate_fn_index_error batch :
  (collate_fn zero batch = Raise IndexError ↔ batch = []) ∧
  (getitem (sorted_reverse by_audio []) 0 = Raise (T:=sample A) IndexError) ∧
  (batch = [] ∨ (∃ out, collate_fn zero batch = Ok out)
   ∨ collate_fn zero batch = Raise ValueError).
Proof.
  destruct (sorted_reverse by_audio batch) as [|b0 rest] eqn:Hs.
  - apply sorted_reverse_nil_inv in Hs as ->. split_and!; [done|done|by left].
  - assert (batch ≠ []) as Hne by (by intros ->).
    destruct (collate_fn_sorted _ _ _ Hs) as (L & _ & _ & Heq).
    rewrite Heq. destruct (forallb _ _).
    + split_and!; [done|done|right; left; by eexists].
    + split_and!; [done|done|by right; right].
Qed.

End collate_facts.

Import Reader.Examples.

(** The two orders of the same two samples give the same batch. *)
Lemma collate_fn_long_first :
  collate_fn 0%Z long_first = Ok short_first_out ∧
  collate_fn 0%Z long_first = collate_fn 0%Z short_first.
Proof. split; reflexivity. Qed.

Lemma collate_fn_lists_sorted_order_witness :
  collate_fn 0%Z short_first = Ok short_first_out ∧
  lists_in_order (sorted_reverse (λ s, shape1 s.1) short_first) short_first_out.
Proof.
  split; [reflexivity|].
  apply (collate_fn_lists_sorted_order 0%Z short_first short_first_out).
  reflexivity.
Defined.

(** C1 as stated fails on [short_first]: the batch is not empty and
    [collate_fn] returns a batch, whose first row is the second sample. *)
Lemma collate_fn_input_order_counterexample :
  short_first ≠ [] ∧
  collate_fn 0%Z short_first = Ok short_first_out ∧
  ¬ lists_in_order short_first short_first_out.
Proof.
  split_and!; [done|reflexivity|]. by intros [? _].
Qed.

Lemma collate_fn_padding_zero_witness :
  Forall (λ s, wf2 s.1) short_first ∧
  collate_fn 0%Z short_first = Ok short_first_out ∧
  ∀ i, i < length short_first →
    ∃ plane row n m,
      planes short_first_out.1.1.1 !! i = Some plane ∧
      short_first_out.1.2 !! i = Some n ∧
      length plane = dim1 short_first_out.1.1.1 ∧
      Forall (λ r, length r = dim2 short_first_out.1.1.1) plane ∧
      Forall (λ r, Forall (λ v, v = 0%Z) (drop n r)) plane ∧
      rows short_first_out.1.1.2 !! i = Some row ∧
      short_first_out.2 !! i = Some m ∧
      Forall (λ v, v = 0%Z) (drop m row).
Proof.
  assert (Forall (λ s : sample Z, wf2 s.1) short_first) as Hwf.
  { repeat constructor. }
  split_and!; [exact Hwf|reflexivity|].
  apply (collate_fn_padding_zero 0%Z short_first); [exact Hwf|reflexivity].
Defined.

Lemma collate_fn_shape_error_witness :
  sorted_reverse (λ s, shape1 s.1) mixed_F
    = (f_long, [9%Z]) :: [(f_thin, [])] ∧
  (collate_fn 0%Z mixed_F = Raise ValueError ↔
     Exists (λ s, shape0 s.1 ≠ shape0 f_long ∧ shape0 s.1 ≠ 1) mixed_F) ∧
  ((∀ s s', s ∈ mixed_F → s' ∈ mixed_F → shape0 s.1 = shape0 s'.1) →
     ∃ out, collate_fn 0%Z mixed_F = Ok out).
Proof.
  split; [reflexivity|].
  apply (collate_fn_shape_error 0%Z mixed_F (f_long, [9%Z]) [(f_thin, [])]).
  reflexivity.
Defined.

(** C7 as stated fails on [mixed_F]: the two samples differ in their number
    of feature rows and [collate_fn] returns a batch. *)
Lemma collate_fn_shape_error_counterexample :
  (∃ s s', s ∈ mixed_F ∧ s' ∈ mixed_F ∧ shape0 s.1 ≠ shape0 s'.1) ∧
  collate_fn 0%Z mixed_F = Ok mixed_F_out.
Proof.
  split; [|reflexivity].
  exists (f_long, [9%Z]), (f_thin, []). split_and!; [set_solver..|done].
Qed.

(** ** Label conversion *)

(** The conversion keeps, in order, the vocabulary indices of the
    characters that have one, except the index 0. *)
Lemma convert_transcript_spec (vocabulary : gmap ascii Z) transcript :
  convert_transcript vocabulary transcript
  = base.filter (λ i, i ≠ 0%Z)
      (omap (λ x, vocabulary !! x) (list_ascii_of_string transcript)).
Proof.
  unfold convert_transcript.
  induction (list_ascii_of_string transcript) as [|x xs IH]; [done|].
  cbn [fmap list_fmap omap list_omap]. rewrite filter_cons.
  destruct (vocabulary !! x) as [i|] eqn:Hx; cbn [truthy].
  - destruct (Z.eqb_spec i 0) as [->|Hi]; cbn [negb].
    + rewrite decide_False by done. rewrite filter_cons_False by (by intros ?).
      exact IH.
    + rewrite decide_True by done. rewrite filter_cons_True by done.
      cbn [omap list_omap id]. by rewrite IH.
  - rewrite decide_False by done. exact IH.
Qed.

(** C2, at the inputs of the claim. The conversion drops, with the
    characters that the vocabulary does not have, the character of index 0:
    for "hello" it returns [[1; 2; 2; 3]] and for "hi" the empty list, also
    with the vocabulary built as the dataset builds it from the list of its
    symbols. *)
Theorem convert_transcript_drops_index_zero :
  convert_transcript hello_vocabulary "hello" = [1; 2; 2; 3]%Z ∧
  convert_transcript hello_vocabulary "hi" = [] ∧
  hello_vocabulary !! "h"%char = Some 0%Z ∧
  hello_vocabulary !! "i"%char = None ∧
  make_vocabulary ["h"; "e"; "l"; "o"]%char = hello_vocabulary.
Proof. split_and!; vm_compute; reflexivity. Qed.

(** ** The streaming predictor *)

Import Predictor.

Section session_facts.
Context {R : Type} (zero : R).
Context (astype_float32 astype_int64 : tensor R → tensor R).
Context (run : handle R → handle R → option (handle R * handle R) →
               result (list (tensor R))).
Implicit Types (self s : InferencePredictor R).

Abbreviation predict_chunk' :=
  (predict_chunk zero astype_float32 astype_int64 run).

Ltac py_unfold :=
  cbv [predict predict_chunk reset_stream pbind shape_at lift modify get ret
       held predictor_run streaming is_None
       set_output_state_h set_output_state_c on_speech_data
       on_speech_lengths on_init_state_h_box on_init_state_c_box
       reshape copy_from_cpu getitem
       use_model num_rnn_layers rnn_size output_state_h output_state_c
       speech_data_handle speech_lengths_handle init_state_h_box_handle
       init_state_c_box_handle h_shape h_data Ok Raise] in *.

(** The first chunk of an utterance on the streaming model: the engine
    runs on the chunk, its lengths and two zero arrays of shape
    [(num_rnn_layers, b, rnn_size)]. *)
Lemma predict_chunk_first self x_chunk x_chunk_lens b f t p l h c rest :
  streaming self = true → output_state_h self = None →
  t_shape x_chunk = [b; f; t] →
  let z := zeros zero [num_rnn_layers self; b; rnn_size self] in
  run (Handle [b; f; t] (Some (astype_float32 x_chunk)))
      (Handle [b] (Some (astype_int64 x_chunk_lens)))
      (Some (Handle [num_rnn_layers self; b; rnn_size self] (Some z),
             Handle [num_rnn_layers self; b; rnn_size self] (Some z)))
    = Ok (p :: l :: h :: c :: rest) →
  ∃ self', predict_chunk' x_chunk x_chunk_lens self = (self', Ok (p, l)) ∧
           output_state_h self' = Some h ∧ output_state_c self' = Some c.
Proof.
  intros Hs Hh Hx z Hrun. destruct self as [um L H oh oc hd hl hh hc].
  subst z. py_unfold. subst oh. rewrite Hx. cbn in *. rewrite Hs. cbn.
  rewrite !Hs. cbn. rewrite Hrun. cbn. eauto.
Qed.

(** A call that returns has run the engine on the handles the session
    holds afterwards, and holds the state that run returned. *)
Lemma predict_chunk_Ok_inv self x_chunk x_chunk_lens self' p l :
  predict_chunk' x_chunk x_chunk_lens self = (self', Ok (p, l)) →
  ∃ outs h c,
    predictor_run run self' = (self', Ok outs) ∧
    outs !! 0 = Some p ∧ outs !! 1 = Some l ∧
    outs !! 2 = Some h ∧ outs !! 3 = Some c ∧
    output_state_h self' = Some h ∧ output_state_c self' = Some c.
Proof.
  destruct self as [um L H oh oc hd hl hh hc]. py_unfold.
  destruct (t_shape x_chunk) as [|b [|f [|t ts]]]; cbn; try done.
  destruct (bool_decide (um = "deepspeech2_online")) eqn:Hs;
    destruct oh as [h0|], oc as [c0|]; cbn; rewrite ?Hs; cbn; try done.
  all: match goal with |- context [run ?a ?b ?c] =>
         destruct (run a b c) as [e|outs] eqn:Hrun end; cbn; try done.
  all: destruct outs as [|o0 [|o1 [|o2 [|o3 os]]]]; cbn; try done.
  all: intros [= <- <- <-]; cbn; rewrite ?Hs, Hrun; eauto 10.
Qed.

(** C3. A session holds no state after [__init__] and after
    [reset_stream]. On a call of [predict_chunk] that finds no state held,
    on the streaming model, the engine runs on the chunk, its lengths and a
    recurrent state of zeros of shape
    [(num_rnn_layers, x_chunk.shape[0], rnn_size)]. After every call that
    returns, the session holds as state the third and fourth outputs of the
    engine's run on the handles it was given, the first two being the
    call's result. *)
Theorem predict_chunk_threads_state self x_chunk x_chunk_lens :
  (∀ um L H, output_state_h (init (R:=R) um L H) = None) ∧
  output_state_h (reset_stream self).1 = None ∧
  (∀ b f t p l h c rest,
     streaming self = true → output_state_h self = None →
     t_shape x_chunk = [b; f; t] →
     let shape := [num_rnn_layers self; b; rnn_size self] in
     t_shape (zeros zero shape) = shape ∧
     Forall (λ v, v = zero) (t_data (zeros zero shape)) ∧
     length (t_data (zeros zero shape))
       = num_rnn_layers self * b * rnn_size self ∧
     (run (Handle [b; f; t] (Some (astype_float32 x_chunk)))
          (Handle [b] (Some (astype_int64 x_chunk_lens)))
          (Some (Handle shape (Some (zeros zero shape)),
                 Handle shape (Some (zeros zero shape))))
        = Ok (p :: l :: h :: c :: rest) →
      ∃ self',
        predict_chunk' x_chunk x_chunk_lens self = (self', Ok (p, l)) ∧
        output_state_h self' = Some h ∧ output_state_c self' = Some c)) ∧
  (∀ self' p l,
     predict_chunk' x_chunk x_chunk_lens self = (self', Ok (p, l)) →
     ∃ outs h c,
       predictor_run run self' = (self', Ok outs) ∧
       outs !! 0 = Some p ∧ outs !! 1 = Some l ∧
       outs !! 2 = Some h ∧ outs !! 3 = Some c ∧
       output_state_h self' = Some h ∧ output_state_c self' = Some c).
Proof.
  split_and!.
  - done.
  - by destruct self.
  - intros b f t p l h c rest Hs Hh Hx shape. split_and!.
    + done.
    + by apply Forall_replicate.
    + unfold zeros, shape. cbn [t_data foldr]. rewrite length_replicate. lia.
    + by apply predict_chunk_first.
  - intros self' p l. apply predict_chunk_Ok_inv.
Qed.

(** C5 (amended). When the engine's run inside [predict_chunk] raises, the
    call raises the same exception, and the state attributes are as
    before the call if the session held state or the model is not the
    streaming one; a failed first chunk on the streaming model leaves the
    zero state of shape [(num_rnn_layers, x_chunk.shape[0], rnn_size)]
    that was assigned before the run. *)
Theorem predict_chunk_failed_run self x_chunk x_chunk_lens b f t self' r e :
  t_shape x_chunk = [b; f; t] →
  Idle self ∨ Active self →
  predict_chunk' x_chunk x_chunk_lens self = (self', r) →
  predictor_run run self' = (self', Raise e) →
  r = Raise e ∧
  if streaming self && is_None (output_state_h self)
  then let z := zeros zero [num_rnn_layers self; b; rnn_size self] in
       output_state_h self' = Some z ∧ output_state_c self' = Some z
  else output_state_h self' = output_state_h self ∧
       output_state_c self' = output_state_c self.
Proof.
  intros Hx Hst. destruct self as [um L H oh oc hd hl hh hc].
  assert (match oh, oc with
          | None, None | Some _, Some _ => True
          | _, _ => False
          end) as Hcons.
  { destruct Hst as [[Hh Hc]|[[? Hh] [? Hc]]]; cbn in Hh, Hc; by subst. }
  clear Hst. py_unfold. rewrite Hx. cbn.
  destruct (bool_decide (um = "deepspeech2_online")) eqn:Hs;
    destruct oh as [h0|], oc as [c0|]; cbn; rewrite ?Hs; cbn; try done.
  all: match goal with |- context [run ?a ?b ?c] =>
         destruct (run a b c) as [e'|outs] eqn:Hrun end; cbn.
  all: try (intros [= <- <-]; cbn; rewrite ?Hs, Hrun;
            by intros [= <-]).
  all: destruct outs as [|o0 [|o1 [|o2 [|o3 os]]]]; cbn;
         intros [= <- <-]; cbn; rewrite ?Hs, Hrun; done.
Qed.


(** C8. [reset_stream] clears both state attributes whatever they held,
    and a second call in a row changes nothing. *)
Theorem reset_stream_idempotent self :
  output_state_h (reset_stream self).1 = None ∧
  output_state_c (reset_stream self).1 = None ∧
  (reset_stream self).2 = Ok () ∧
  reset_stream (reset_stream self).1 = reset_stream self.
Proof. by destruct self. Qed.

(** *** [predict] and the state attributes *)

Lemma keeps_ret {T} (v : T) : keeps_stream_state (R:=R) (ret v).
Proof. done. Qed.

Lemma keeps_lift {T} (r : result T) : keeps_stream_state (R:=R) (lift r).
Proof. done. Qed.

Lemma keeps_get : keeps_stream_state (R:=R) get.
Proof. done. Qed.

Lemma keeps_shape_at a i : keeps_stream_state (R:=R) (shape_at a i).
Proof. done. Qed.

Lemma keeps_predictor_run : keeps_stream_state (predictor_run run).
Proof. done. Qed.

Lemma keeps_on_speech_data g :
  keeps_stream_state (R:=R) (modify (on_speech_data g)).
Proof. done. Qed.

Lemma keeps_on_speech_lengths g :
  keeps_stream_state (R:=R) (modify (on_speech_lengths g)).
Proof. done. Qed.

Lemma keeps_on_init_state_h_box g :
  keeps_stream_state (R:=R) (modify (on_init_state_h_box g)).
Proof. done. Qed.

Lemma keeps_on_init_state_c_box g :
  keeps_stream_state (R:=R) (modify (on_init_state_c_box g)).
Proof. done. Qed.

Lemma keeps_pbind {T U} (m : py T) (k : T → py U) :
  keeps_stream_state (R:=R) m → (∀ v, keeps_stream_state (k v)) →
  keeps_stream_state (pbind m k).
Proof.
  intros Hm Hk s. unfold pbind. specialize (Hm s).
  destruct (m s) as [s' [e|v]]; [done|].
  destruct (Hk v s') as [-> ->]. done.
Qed.

Lemma keeps_if {T} (b : bool) (m1 m2 : py T) :
  keeps_stream_state (R:=R) m1 → keeps_stream_state m2 →
  keeps_stream_state (if b then m1 else m2).
Proof. by destruct b. Qed.

Create HintDb frame discriminated.
Hint Resolve keeps_ret keeps_lift keeps_get keeps_shape_at
  keeps_predictor_run keeps_on_speech_data keeps_on_speech_lengths
  keeps_on_init_state_h_box keeps_on_init_state_c_box keeps_pbind keeps_if
  : frame.

(** C9. [predict] leaves [output_state_h] and [output_state_c] as they
    were, whatever they held and whether it returns or raises. *)
Theorem predict_keeps_stream_state speech speech_lengths self :
  output_state_h (predict zero run speech speech_lengths self).1
    = output_state_h self ∧
  output_state_c (predict zero run speech speech_lengths self).1
    = output_state_c self.
Proof.
  revert self. change (keeps_stream_state (predict zero run speech speech_lengths)).
  unfold predict. auto 30 with frame.
Qed.

End session_facts.

Import Predictor.Examples.

Lemma predict_chunk_threads_state_witness :
  ∃ self',
    predict_chunk 0%Z as_is as_is lenient_run chunk1 chunk1_lens fresh
      = (self', Ok (probs, lens)) ∧
    output_state_h self' = Some new_h ∧ output_state_c self' = Some new_c.
Proof.
  destruct (predict_chunk_threads_state 0%Z as_is as_is lenient_run
              fresh chunk1 chunk1_lens) as (_ & _ & Hfirst & _).
  destruct (Hfirst 1 1 1 probs lens new_h new_c [] eq_refl eq_refl eq_refl)
    as (_ & _ & _ & Hrun).
  apply Hrun. reflexivity.
Defined.

Lemma predict_chunk_failed_run_witness :
  let res :=
    predict_chunk 0%Z as_is as_is failing_run chunk1 chunk1_lens after_chunk1 in
  t_shape chunk1 = [1; 1; 1] ∧
  (Idle after_chunk1 ∨ Active after_chunk1) ∧
  predictor_run failing_run res.1 = (res.1, Raise EngineError) ∧
  res.2 = Raise EngineError ∧
  output_state_h res.1 = output_state_h after_chunk1 ∧
  output_state_c res.1 = output_state_c after_chunk1.
Proof.
  intros res.
  assert (Idle after_chunk1 ∨ Active after_chunk1) as Hst.
  { right. split; eexists; vm_compute; reflexivity. }
  let v := eval vm_compute in
    (predict_chunk 0%Z as_is as_is failing_run chunk1 chunk1_lens
       after_chunk1) in
  match v with
  | (?s, ?r) =>
      assert (predict_chunk 0%Z as_is as_is failing_run chunk1 chunk1_lens
                after_chunk1 = (s, r)) as Hcall by (vm_compute; reflexivity);
      assert (predictor_run failing_run s = (s, Raise EngineError))
        as Hrun by (vm_compute; reflexivity);
      pose proof (predict_chunk_failed_run 0%Z as_is as_is failing_run
                    after_chunk1 chunk1 chunk1_lens 1 1 1 s r EngineError
                    eq_refl Hst Hcall Hrun) as H
  end.
  split_and!; [reflexivity|exact Hst|vm_compute; reflexivity|..];
    vm_compute in H; vm_compute; apply H.
Defined.

(** C5 as stated fails on the first chunk: the engine's run raises, and the
    session that held no state holds the zero state afterwards. *)
Lemma predict_chunk_failed_first_chunk_counterexample :
  let res :=
    predict_chunk 0%Z as_is as_is failing_run chunk1 chunk1_lens fresh in
  Idle fresh ∧
  predictor_run failing_run res.1 = (res.1, Raise EngineError) ∧
  res.2 = Raise EngineError ∧
  output_state_h res.1 ≠ output_state_h fresh ∧
  output_state_c res.1 ≠ output_state_c fresh ∧
  ¬ Idle res.1.
Proof.
  split_and!; try done. by intros [? _].
Qed.



(** ** More on [collate_fn] *)

Section collate_more.
Context {A : Type} (zero : A).
Implicit Types (batch : list (sample A)) (s : sample A).

Abbreviation by_audio := (λ s : sample A, shape1 s.1).
Abbreviation by_label := (λ s : sample A, length s.2).

Lemma sorted_reverse_head_elem {T} (key : T → nat) (l : list T) x rest :
  sorted_reverse key l = x :: rest → x ∈ l.
Proof.
  intros H. rewrite <- (sorted_reverse_perm key l), H. by left.
Qed.

(** The label width of a returned batch is the length of one of the
    transcripts. *)
Lemma collate_fn_label_width batch inputs labels input_lens label_lens :
  collate_fn zero batch = Ok (inputs, labels, input_lens, label_lens) →
  shape1 labels ∈ label_lens.
Proof.
  intros Hout.
  destruct (sorted_reverse by_audio batch) as [|b0 rest] eqn:Hs.
  { apply sorted_reverse_nil_inv in Hs as ->. done. }
  destruct (sorted_reverse by_label (b0 :: rest)) as [|t0 trest] eqn:Ht.
  { by apply sorted_reverse_nil_inv in Ht. }
  pose proof (sorted_reverse_head_elem _ _ _ _ Ht) as Hin.
  revert Hout. unfold collate_fn. cbv zeta. rewrite Hs, Ht.
  cbn [getitem lookup list_lookup bind Ok]. unfold zeros3, zeros2.
  pose proof (collate_loop zero (b0 :: rest) (length (b0 :: rest))
    (shape0 b0.1) (shape1 b0.1) (length t0.2) (length (b0 :: rest))
    0 [] [] [] []) as Hloop.
  cbn [app drop] in Hloop. rewrite Hloop by done.
  destruct (forallb _ _); [|done]. intros [= <- <- <- <-]. cbn [shape1].
  apply (list_elem_of_fmap_2 by_label) in Hin. done.
Qed.

(** X1. The shape of a returned batch: one row per sample in each of the
    four arrays; the width of [inputs] is the largest entry of
    [input_lens], which is its first entry, and the width of [labels] is
    the largest entry of [label_lens]. *)
Theorem collate_fn_shape batch inputs labels input_lens label_lens :
  collate_fn zero batch = Ok (inputs, labels, input_lens, label_lens) →
  dim0 inputs = length batch ∧ length (planes inputs) = length batch ∧
  shape0 labels = length batch ∧ length (rows labels) = length batch ∧
  length input_lens = length batch ∧ length label_lens = length batch ∧
  head input_lens = Some (dim2 inputs) ∧
  Forall (λ n, n ≤ dim2 inputs) input_lens ∧
  shape1 labels ∈ label_lens ∧
  Forall (λ m, m ≤ shape1 labels) label_lens.
Proof.
  intros Hout. pose proof (collate_fn_label_width _ _ _ _ _ Hout) as Hw.
  destruct (collate_fn_Ok_inv _ _ _ Hout)
    as (b0 & rest & L & Hs & HL & HT & _ & Heq).
  pose proof (sorted_reverse_length by_audio batch) as Hlen.
  rewrite Hs in Hlen. unfold collated in Heq. simplify_eq.
  cbn [dim0 dim2 planes shape0 shape1 rows] in *.
  rewrite !length_fmap.
  split_and!; try done.
  - by apply Forall_fmap.
  - by apply Forall_fmap.
Qed.

(** X2. When no two samples have the same feature length, the batch does
    not depend on the order of the input list. *)
Theorem collate_fn_permutation batch1 batch2 :
  batch1 ≡ₚ batch2 → NoDup (by_audio <$> batch1) →
  collate_fn zero batch1 = collate_fn zero batch2.
Proof.
  intros Hperm Hnd.
  assert (sorted_reverse by_audio batch1 = sorted_reverse by_audio batch2)
    as Heq.
  { apply (StronglySorted_unique_strong (desc by_audio));
      [|apply sorted_reverse_sorted..|by rewrite !sorted_reverse_perm].
    intros x1 x2. rewrite !sorted_reverse_perm, <- Hperm.
    unfold desc. intros H1 H2 Hle Hge.
    apply list_elem_of_lookup in H1 as [i1 H1].
    apply list_elem_of_lookup in H2 as [i2 H2].
    assert (i1 = i2) as ->; [|congruence].
    eapply (NoDup_lookup _ _ _ _ Hnd); rewrite list_lookup_fmap.
    - by rewrite H1.
    - rewrite H2. cbn. f_equal. lia. }
  unfold collate_fn. cbv zeta. by rewrite Heq.
Qed.

(** X3. A batch of one sample has no padding: the arrays are the sample's
    own feature matrix and transcript. *)
Theorem collate_fn_singleton (tensor : ndarray2 A) (target : list Z) :
  wf2 tensor →
  collate_fn zero [(tensor, target)]
  = Ok (Ndarray3 1 (shape0 tensor) (shape1 tensor) [rows tensor],
        Ndarray2 1 (length target) [target],
        [shape1 tensor], [length target]).
Proof.
  intros [H0 Hr]. unfold collate_fn. cbn.
  unfold setitem_plane. cbn. rewrite Nat.min_id, !broadcasts_refl. cbn.
  unfold setitem_row. cbn. rewrite Nat.min_id, broadcasts_refl. cbn.
  unfold Ok. repeat f_equal.
  - unfold write_plane. rewrite stretch_same by done.
    rewrite <- H0. clear H0.
    induction Hr as [|r rs Hlen _ IH]; cbn; [done|]. f_equal; [|done].
    unfold write_row. rewrite stretch_same by done.
    by rewrite drop_replicate, Nat.sub_diag, app_nil_r.
  - unfold write_row. rewrite stretch_same by done.
    by rewrite drop_replicate, Nat.sub_diag, app_nil_r.
Qed.

(** X4. A sample that has a single feature row, in a batch of [F] feature
    rows, fills each of the [F] rows of its plane with that one row (and
    the padding): NumPy repeats it without an error. *)
Theorem collate_fn_repeats_single_row batch inputs labels input_lens
    label_lens i s row :
  collate_fn zero batch = Ok (inputs, labels, input_lens, label_lens) →
  sorted_reverse by_audio batch !! i = Some s →
  rows s.1 = [row] → length row = shape1 s.1 →
  planes inputs !! i
  = Some (replicate (dim1 inputs)
            (row ++ replicate (dim2 inputs - shape1 s.1) zero)).
Proof.
  intros Hout Hi Hrows Hlen.
  destruct (collate_fn_Ok_inv _ _ _ Hout)
    as (b0 & rest & L & Hs & HL & HT & _ & Heq).
  rewrite Hs in Hi. pose proof (Forall_lookup_1 _ _ _ _ HT Hi) as HTs.
  cbn beta in HTs.
  unfold collated in Heq. simplify_eq. cbn [planes dim1 dim2].
  rewrite list_lookup_fmap, Hi. cbn [fmap option_fmap option_map]. f_equal.
  unfold plane_of, write_plane. rewrite Hrows, Nat.min_l by done.
  assert (∀ F, stretch F [row] = replicate F row) as ->.
  { intros F. unfold stretch. case_decide as HF; [|done].
    cbn in HF. by subst F. }
  generalize (shape0 b0.1). intros F. induction F as [|F IH]; cbn; [done|].
  f_equal; [|done]. unfold write_row. rewrite stretch_same by done.
  by rewrite drop_replicate.
Qed.
End collate_more.

(** ** More on the streaming predictor *)

Section session_more.
Context {R : Type} (zero : R).
Context (astype_float32 astype_int64 : tensor R → tensor R).
Context (run : handle R → handle R → option (handle R * handle R) →
               result (list (tensor R))).
Implicit Types (self s : InferencePredictor R).

Abbreviation predict_chunk' :=
  (predict_chunk zero astype_float32 astype_int64 run).
Abbreviation predict' := (predict zero run).

Ltac py_unfold :=
  cbv [predict predict_chunk reset_stream pbind shape_at lift modify get ret
       held predictor_run streaming is_None
       set_output_state_h set_output_state_c on_speech_data
       on_speech_lengths on_init_state_h_box on_init_state_c_box
       reshape copy_from_cpu getitem
       use_model num_rnn_layers rnn_size output_state_h output_state_c
       speech_data_handle speech_lengths_handle init_state_h_box_handle
       init_state_c_box_handle h_shape h_data Ok Raise] in *.

(** X5. An array of fewer than three dimensions is refused with
    [IndexError] by [predict] and by [predict_chunk] before anything is
    assigned: the session is left as it was, handles included. *)
Theorem predict_low_rank_unchanged self (x x_lens : tensor R) :
  length (t_shape x) < 3 →
  predict' x x_lens self = (self, Raise IndexError) ∧
  predict_chunk' x x_lens self = (self, Raise IndexError).
Proof.
  intros Hlen. py_unfold.
  destruct (t_shape x) as [|b [|f [|t ts]]]; cbn in *; try done; lia.
Qed.

(** X6. The result of [predict] does not depend on the recurrent state the
    session holds, nor on what its handles held: two sessions of the same
    model and configuration give the same result, and so do a session and
    the same session after [reset_stream]. *)
Theorem predict_ignores_stream_state s1 s2 (speech speech_lengths : tensor R) :
  use_model s1 = use_model s2 →
  num_rnn_layers s1 = num_rnn_layers s2 →
  rnn_size s1 = rnn_size s2 →
  (predict' speech speech_lengths s1).2 = (predict' speech speech_lengths s2).2 ∧
  (predict' speech speech_lengths (reset_stream s1).1).2
    = (predict' speech speech_lengths s1).2.
Proof.
  destruct s1 as [um1 L1 H1 oh1 oc1 hd1 hl1 hh1 hc1].
  destruct s2 as [um2 L2 H2 oh2 oc2 hd2 hl2 hh2 hc2].
  cbn. intros -> -> ->. py_unfold.
  destruct (t_shape speech) as [|b [|f [|t ts]]]; cbn; try done.
  destruct (bool_decide (um2 = "deepspeech2_online")) eqn:Hs; cbn;
    rewrite ?Hs; cbn.
  all: match goal with |- context [run ?a ?b ?c] =>
         destruct (run a b c) as [e|outs] end; cbn; try done.
  all: by destruct (outs !! 0).
Qed.

(** X7. After [reset_stream], what [predict_chunk] returns and the state
    it leaves depend on the chunk, the model and the configuration only:
    nothing of an earlier utterance is carried over. *)
Theorem predict_chunk_after_reset_isolated s1 s2 (x_chunk x_chunk_lens : tensor R) :
  use_model s1 = use_model s2 →
  num_rnn_layers s1 = num_rnn_layers s2 →
  rnn_size s1 = rnn_size s2 →
  let r1 := predict_chunk' x_chunk x_chunk_lens (reset_stream s1).1 in
  let r2 := predict_chunk' x_chunk x_chunk_lens (reset_stream s2).1 in
  r1.2 = r2.2 ∧
  output_state_h r1.1 = output_state_h r2.1 ∧
  output_state_c r1.1 = output_state_c r2.1.
Proof.
  destruct s1 as [um1 L1 H1 oh1 oc1 hd1 hl1 hh1 hc1].
  destruct s2 as [um2 L2 H2 oh2 oc2 hd2 hl2 hh2 hc2].
  cbn. intros -> -> ->. py_unfold.
  destruct (t_shape x_chunk) as [|b [|f [|t ts]]]; cbn; try done.
  destruct (bool_decide (um2 = "deepspeech2_online")) eqn:Hs; cbn;
    rewrite ?Hs; cbn.
  all: match goal with |- context [run ?a ?b ?c] =>
         destruct (run a b c) as [e|outs] end; cbn; try done.
  all: by destruct outs as [|o0 [|o1 [|o2 [|o3 os]]]].
Qed.

(** X8. [predict_chunk] reads four outputs whatever the model. When the
    engine's run returns fewer, the call raises [IndexError]; with fewer
    than three outputs the state is as the run found it, and with exactly
    three the third output is already held as [output_state_h] while
    [output_state_c] is still as the run found it. *)
Theorem predict_chunk_few_outputs self x_chunk x_chunk_lens b f t self' r outs :
  t_shape x_chunk = [b; f; t] →
  Idle self ∨ Active self →
  predict_chunk' x_chunk x_chunk_lens self = (self', r) →
  predictor_run run self' = (self', Ok outs) →
  length outs < 4 →
  let z := zeros zero [num_rnn_layers self; b; rnn_size self] in
  let first := streaming self && is_None (output_state_h self) in
  r = Raise IndexError ∧
  output_state_c self' = (if first then Some z else output_state_c self) ∧
  output_state_h self'
  = match outs !! 2 with
    | Some h => Some h
    | None => if first then Some z else output_state_h self
    end.
Proof.
  intros Hx Hst. destruct self as [um L H oh oc hd hl hh hc].
  assert (match oh, oc with
          | None, None | Some _, Some _ => True
          | _, _ => False
          end) as Hcons.
  { destruct Hst as [[Hh Hc]|[[? Hh] [? Hc]]]; cbn in Hh, Hc; by subst. }
  clear Hst. py_unfold. rewrite Hx. cbn.
  destruct (bool_decide (um = "deepspeech2_online")) eqn:Hs;
    destruct oh as [h0|], oc as [c0|]; cbn; rewrite ?Hs; cbn; try done.
  all: match goal with |- context [run ?a ?b ?c] =>
         destruct (run a b c) as [e'|outs'] eqn:Hrun end; cbn.
  all: try (intros [= <- <-]; cbn; rewrite ?Hs, Hrun; done).
  all: destruct outs' as [|o0 [|o1 [|o2 [|o3 os]]]]; cbn;
         intros [= <- <-]; cbn; rewrite ?Hs, Hrun; intros [= <-]; cbn;
         try done; lia.
Qed.

(** [predict_chunk] never assigns [use_model]. *)
Lemma predict_chunk_keeps_model self x_chunk x_chunk_lens :
  use_model (predict_chunk' x_chunk x_chunk_lens self).1 = use_model self.
Proof.
  destruct self as [um L H oh oc hd hl hh hc]. py_unfold.
  destruct (t_shape x_chunk) as [|b [|f [|t ts]]]; cbn; try done.
  destruct (bool_decide (um = "deepspeech2_online")) eqn:Hs;
    destruct oh as [h0|], oc as [c0|]; cbn; rewrite ?Hs; cbn; try done.
  all: match goal with |- context [run ?a ?b ?c] =>
         destruct (run a b c) as [e|outs] end; cbn; try done.
  all: by destruct outs as [|o0 [|o1 [|o2 [|o3 os]]]].
Qed.

(** A chunk on a session that holds state: the engine is given the held
    arrays. *)
Lemma predict_chunk_held self x_chunk x_chunk_lens b f t h c p l h' c' rest :
  streaming self = true →
  output_state_h self = Some h → output_state_c self = Some c →
  t_shape x_chunk = [b; f; t] →
  run (Handle [b; f; t] (Some (astype_float32 x_chunk)))
      (Handle [b] (Some (astype_int64 x_chunk_lens)))
      (Some (Handle (t_shape h) (Some h), Handle (t_shape c) (Some c)))
    = Ok (p :: l :: h' :: c' :: rest) →
  ∃ self', predict_chunk' x_chunk x_chunk_lens self = (self', Ok (p, l)) ∧
           output_state_h self' = Some h' ∧ output_state_c self' = Some c'.
Proof.
  intros Hs Hh Hc Hx Hrun. destruct self as [um L H oh oc hd hl hh hc].
  py_unfold. subst oh oc. rewrite Hx. cbn in *. rewrite !Hs. cbn.
  rewrite !Hs, Hrun. cbn. eauto.
Qed.

(** X9. Two chunks of one utterance on the streaming model: the second
    run of the engine is given, as recurrent state, the two arrays that
    the first run returned, under their own shapes, and the session ends
    with the state the second run returned. *)
Theorem predict_chunk_twice self x1 x1_lens x2 x2_lens
    b1 f1 t1 b2 f2 t2 p1 l1 h1 c1 rest1 p2 l2 h2 c2 rest2 :
  streaming self = true → output_state_h self = None →
  t_shape x1 = [b1; f1; t1] → t_shape x2 = [b2; f2; t2] →
  let shape := [num_rnn_layers self; b1; rnn_size self] in
  run (Handle [b1; f1; t1] (Some (astype_float32 x1)))
      (Handle [b1] (Some (astype_int64 x1_lens)))
      (Some (Handle shape (Some (zeros zero shape)),
             Handle shape (Some (zeros zero shape))))
    = Ok (p1 :: l1 :: h1 :: c1 :: rest1) →
  run (Handle [b2; f2; t2] (Some (astype_float32 x2)))
      (Handle [b2] (Some (astype_int64 x2_lens)))
      (Some (Handle (t_shape h1) (Some h1), Handle (t_shape c1) (Some c1)))
    = Ok (p2 :: l2 :: h2 :: c2 :: rest2) →
  ∃ s1 s2,
    predict_chunk' x1 x1_lens self = (s1, Ok (p1, l1)) ∧
    predict_chunk' x2 x2_lens s1 = (s2, Ok (p2, l2)) ∧
    output_state_h s2 = Some h2 ∧ output_state_c s2 = Some c2.
Proof.
  intros Hs Hh Hx1 Hx2 shape Hrun1 Hrun2.
  destruct (predict_chunk_first zero astype_float32 astype_int64 run
              self x1 x1_lens b1 f1 t1 p1 l1 h1 c1 rest1 Hs Hh Hx1 Hrun1)
    as (s1 & Hcall1 & Hh1 & Hc1).
  assert (streaming s1 = true) as Hs1.
  { unfold streaming in *.
    by rewrite <- (predict_chunk_keeps_model self x1 x1_lens), Hcall1 in Hs. }
  destruct (predict_chunk_held s1 x2 x2_lens b2 f2 t2 h1 c1 p2 l2 h2 c2 rest2
              Hs1 Hh1 Hc1 Hx2 Hrun2) as (s2 & Hcall2 & Hh2 & Hc2).
  eauto 10.
Qed.
End session_more.

(** ** The vocabulary and the label conversion *)

Lemma make_vocabulary_snoc (labels : list ascii) x :
  make_vocabulary (labels ++ [x])
  = <[x := Z.of_nat (length labels)]> (make_vocabulary labels).
Proof.
  unfold make_vocabulary. rewrite imap_app, foldl_app. cbn.
  by rewrite Nat.add_0_r.
Qed.

Lemma make_vocabulary_last (labels : list ascii) x :
  (∀ i : nat,
     make_vocabulary labels !! x = Some (Z.of_nat i) ↔
     labels !! i = Some x ∧ ∀ j, i < j → labels !! j ≠ Some x) ∧
  (make_vocabulary labels !! x = None ↔ x ∉ labels) ∧
  (∀ v, make_vocabulary labels !! x = Some v →
        (0 ≤ v < Z.of_nat (length labels))%Z).
Proof.
  induction labels as [|y labels IH] using rev_ind.
  { split_and!.
    - intros i. split; [done|]. by intros [? _].
    - split; [intros _; apply not_elem_of_nil | done].
    - done. }
  destruct IH as (IHi & IHn & IHv).
  rewrite make_vocabulary_snoc.
  destruct (decide (y = x)) as [->|Hne].
  - rewrite lookup_insert_eq. split_and!.
    + intros i. split.
      * intros [= Heq%(inj Z.of_nat)]. subst i. split.
        -- by rewrite lookup_app_r, Nat.sub_diag.
        -- intros j Hj. rewrite lookup_ge_None_2; [done|].
           rewrite length_app. cbn. lia.
      * intros [Hi Hlast]. f_equal. f_equal.
        destruct (decide (i < length labels)) as [Hlt|Hge].
        -- exfalso. apply (Hlast (length labels) Hlt).
           by rewrite lookup_app_r, Nat.sub_diag.
        -- apply lookup_lt_Some in Hi. rewrite length_app in Hi.
           cbn in Hi. lia.
    + split; [done|]. intros []. apply elem_of_app. right. by left.
    + intros v [= <-]. rewrite length_app. cbn. lia.
  - rewrite lookup_insert_ne by done. split_and!.
    + intros i. rewrite IHi. split; intros [Hi Hlast].
      * split.
        -- by apply lookup_app_l_Some.
        -- intros j Hj. destruct (decide (j < length labels)).
           ++ rewrite lookup_app_l by done. by apply Hlast.
           ++ destruct (decide (j = length labels)) as [->|].
              ** rewrite lookup_app_r, Nat.sub_diag by done. cbn. congruence.
              ** rewrite lookup_ge_None_2; [done|].
                 rewrite length_app. cbn. lia.
      * assert (i < length labels) as Hlt.
        { destruct (decide (i < length labels)); [done|].
          apply lookup_lt_Some in Hi as Hi'. rewrite length_app in Hi'.
          cbn in Hi'. assert (i = length labels) as -> by lia.
          rewrite lookup_app_r, Nat.sub_diag in Hi by done. cbn in Hi.
          congruence. }
        split.
        -- by rewrite lookup_app_l in Hi.
        -- intros j Hj Hjx. apply (Hlast j Hj). by apply lookup_app_l_Some.
    + rewrite IHn, elem_of_app, list_elem_of_singleton. split.
      * intros H [?|?]; [done|congruence].
      * intros H ?. apply H. by left.
    + intros v Hv. apply IHv in Hv. rewrite length_app. cbn. lia.
Qed.

(** X10. The vocabulary maps a symbol to the last position at which the
    list of symbols has it, and has no entry for a symbol that the list
    does not have; its values are positions of the list. *)
Theorem make_vocabulary_lookup (labels : list ascii) x :
  (∀ i : nat,
     make_vocabulary labels !! x = Some (Z.of_nat i) ↔
     labels !! i = Some x ∧ ∀ j, i < j → labels !! j ≠ Some x) ∧
  (make_vocabulary labels !! x = None ↔ x ∉ labels) ∧
  (∀ v, make_vocabulary labels !! x = Some v →
        (0 ≤ v < Z.of_nat (length labels))%Z).
Proof. apply make_vocabulary_last. Qed.

(** X11. For a list of symbols without repetition, symbol and position
    determine each other: the vocabulary maps the symbol at position [i] to
    [i], and only that symbol. *)
Theorem make_vocabulary_round_trip (labels : list ascii) (i : nat) x :
  NoDup labels →
  (make_vocabulary labels !! x = Some (Z.of_nat i) ↔ labels !! i = Some x).
Proof.
  intros Hnd. destruct (make_vocabulary_last labels x) as (Hi & _ & _).
  rewrite Hi. split; [by intros [? _]|]. intros Hx. split; [done|].
  intros j Hj Hjx. pose proof (NoDup_lookup _ _ _ _ Hnd Hx Hjx). lia.
Qed.

(** X12. The conversion is a homomorphism from transcripts to label
    sequences: the empty transcript gives no label, a concatenation gives
    the concatenation, and the labels never outnumber the characters. *)
Theorem convert_transcript_app (vocabulary : gmap ascii Z) (t1 t2 : string) :
  convert_transcript vocabulary "" = [] ∧
  convert_transcript vocabulary (t1 +:+ t2)
  = convert_transcript vocabulary t1 ++ convert_transcript vocabulary t2 ∧
  length (convert_transcript vocabulary t1) ≤ String.length t1.
Proof.
  split_and!.
  - done.
  - rewrite !convert_transcript_spec.
    assert (list_ascii_of_string (t1 +:+ t2)
            = list_ascii_of_string t1 ++ list_ascii_of_string t2) as ->.
    { induction t1 as [|c t1 IH]; [done|]. simpl. f_equal. exact IH. }
    by rewrite omap_app, filter_app.
  - rewrite convert_transcript_spec.
    etrans; [apply length_filter|].
    induction t1 as [|c t1 IH]; cbn; [done|].
    destruct (vocabulary !! c); cbn; lia.
Qed.

Lemma convert_transcript_in_range (labels : list ascii) (transcript : string) :
  Forall (λ v, (0 < v < Z.of_nat (length labels))%Z ∧
               ∃ x, x ∈ list_ascii_of_string transcript ∧
                    make_vocabulary labels !! x = Some v)
    (convert_transcript (make_vocabulary labels) transcript).
Proof.
  rewrite convert_transcript_spec. apply Forall_forall.
  intros v [Hv0 Hv]%list_elem_of_filter.
  apply list_elem_of_omap in Hv as (x & Hx & Hlook).
  destruct (make_vocabulary_last labels x) as (_ & _ & Hrange).
  specialize (Hrange v Hlook). split; [lia|]. eauto.
Qed.

(** X13. With the vocabulary of a list of symbols, every label that the
    conversion returns is a position of that list other than 0, and is the
    vocabulary's entry for a character of the transcript. *)
Theorem convert_transcript_labels (labels : list ascii) (transcript : string) :
  Forall (λ v, (0 < v < Z.of_nat (length labels))%Z ∧
               ∃ x, x ∈ list_ascii_of_string transcript ∧
                    make_vocabulary labels !! x = Some v)
    (convert_transcript (make_vocabulary labels) transcript).
Proof. apply convert_transcript_in_range. Qed.

(** X21. The conversion returns, in the order of the transcript, the
    vocabulary entries of its characters, leaving out the characters that
    have none and those whose entry is 0. *)
Theorem convert_transcript_keeps_nonzero (vocabulary : gmap ascii Z)
    transcript :
  convert_transcript vocabulary transcript
  = base.filter (λ i, i ≠ 0%Z)
      (omap (λ x, vocabulary !! x) (list_ascii_of_string transcript)).
Proof. apply convert_transcript_spec. Qed.

Import Py.

(** ** Python sequences *)

Lemma getitem_int_nonneg {T} (l : list T) (n : nat) :
  getitem_int l (Z.of_nat n) = getitem l n.
Proof.
  unfold getitem_int. cbv zeta. repeat case_decide; try lia.
  by rewrite Nat2Z.id.
Qed.

Lemma getitem_int_out {T} (l : list T) (i : Z) :
  ¬ (- Z.of_nat (length l) ≤ i < Z.of_nat (length l))%Z →
  getitem_int l i = Raise IndexError.
Proof.
  intros Hout. unfold getitem_int. cbv zeta.
  repeat case_decide; try done; try lia.
  unfold getitem. rewrite lookup_ge_None_2; [done|]. lia.
Qed.

Lemma getitem_int_wrap {T} (l : list T) (i : Z) :
  (0 ≤ i < Z.of_nat (length l))%Z →
  getitem_int l (i - Z.of_nat (length l)) = getitem_int l i.
Proof.
  intros Hi. unfold getitem_int. cbv zeta.
  repeat case_decide; try lia.
  by replace (i - Z.of_nat (length l) + Z.of_nat (length l))%Z with i by lia.
Qed.

(** ** data_utils/reader.py: the dataset *)

Section reader_dataset.
Import ReaderDataset.
Context {F A Audio : Type}.
Context (load_audio_file : string → result Audio).
Context (featurize : Audio → result (ndarray2 A)).
Implicit Types (self : PPASRDataset F) (lines : list manifest_line).

Abbreviation getitem_sample' := (getitem_sample load_audio_file featurize).



(** X15. [__getitem__] takes an index as a Python list does: outside
    [-len, len) it raises [IndexError]; a negative index counts from the
    end; at position [n] of the kept lines, when the featurizer returns,
    it returns the feature matrix of that line's path and the label
    sequence of that line's text. *)
Theorem reader_getitem_sample self (idx : Z) :
  (¬ (- Z.of_nat (len self) ≤ idx < Z.of_nat (len self))%Z →
   getitem_sample' self idx = Raise IndexError) ∧
  ((0 ≤ idx < Z.of_nat (len self))%Z →
   getitem_sample' self (idx - Z.of_nat (len self))
   = getitem_sample' self idx) ∧
  (∀ n path transcript audio feature,
     idx = Z.of_nat n →
     data_list self !! n = Some (path, transcript) →
     load_audio_file path = Ok audio → featurize audio = Ok feature →
     getitem_sample' self idx
     = Ok (feature, convert_transcript (vocabulary self) transcript)).
Proof.
  unfold getitem_sample, len. split_and!.
  - intros Hout. by rewrite getitem_int_out.
  - intros Hin. by rewrite getitem_int_wrap.
  - intros n path transcript audio feature -> Hn Hload Hfeat.
    rewrite getitem_int_nonneg. unfold getitem. rewrite Hn. cbn.
    by rewrite Hload; cbn; rewrite Hfeat.
Qed.

End reader_dataset.

(** ** Python strings *)

Abbreviation chars := list_ascii_of_string.

Lemma chars_app (a b : string) : chars (a +:+ b) = chars a ++ chars b.
Proof. induction a as [|c a IH]; [done|]. simpl. f_equal. exact IH. Qed.

Lemma chars_inj (a b : string) : chars a = chars b → a = b.
Proof.
  intros H. rewrite <- (string_of_list_ascii_of_string a),
    <- (string_of_list_ascii_of_string b). by rewrite H.
Qed.

Lemma split_nonempty sep s : split sep s ≠ [].
Proof.
  destruct s as [|c s]; cbn [split]; [done|].
  destruct (decide (c = sep)); [done|]. by destruct (split sep s).
Qed.

Lemma split_no_sep sep s : sep ∉ chars s → split sep s = [s].
Proof.
  induction s as [|c s IH]; simpl; [done|].
  intros Hnot. apply not_elem_of_cons in Hnot as [Hne Hnot].
  destruct (decide (c = sep)) as [->|_]; [done|]. by rewrite IH.
Qed.

Lemma split_app_sep sep a b :
  sep ∉ chars a → split sep (a +:+ String sep b) = a :: split sep b.
Proof.
  induction a as [|c a IH]; simpl.
  - intros _. by destruct (decide (sep = sep)).
  - intros Hnot. apply not_elem_of_cons in Hnot as [Hne Hnot].
    destruct (decide (c = sep)) as [->|_]; [done|]. by rewrite IH.
Qed.

Lemma split_length sep s :
  length (split sep s) = S (length (base.filter (λ c, c = sep) (chars s))).
Proof.
  induction s as [|c s IH]; [done|].
  change (chars (String c s)) with (c :: chars s). rewrite filter_cons.
  cbn [split]. pose proof (split_nonempty sep s).
  destruct (decide (c = sep)); cbn [length]; [by rewrite IH|].
  destruct (split sep s); [done|]. exact IH.
Qed.

(** Splitting loses nothing: joining the pieces gives the string back. *)
Lemma join_split sep s : join sep (split sep s) = s.
Proof.
  induction s as [|c s IH]; [done|]. cbn [split].
  pose proof (split_nonempty sep s) as Hne.
  destruct (decide (c = sep)) as [->|Hc].
  - destruct (split sep s) as [|p ps]; [done|]. by rewrite <- IH.
  - destruct (split sep s) as [|p ps]; [done|].
    destruct ps as [|q ps]; by rewrite <- IH.
Qed.

Lemma lstrip_length l : length (lstrip l) ≤ length l.
Proof.
  induction l as [|c l IH]; cbn; [done|]. destruct (isspace c); cbn; lia.
Qed.

Lemma lstrip_spaces l1 l2 :
  Forall (λ c, isspace c = true) l1 → lstrip (l1 ++ l2) = lstrip l2.
Proof. induction 1 as [|c l1 Hc _ IH]; cbn; [done|]. by rewrite Hc. Qed.

Lemma lstrip_keeps l1 c l2 :
  lstrip l1 = l1 → isspace c = false →
  lstrip (l1 ++ c :: l2) = l1 ++ c :: l2.
Proof.
  intros Hl Hc. destruct l1 as [|x l1]; cbn in *.
  - by rewrite Hc.
  - destruct (isspace x); [|done].
    pose proof (lstrip_length l1) as Hlen. rewrite Hl in Hlen.
    cbn in Hlen. lia.
Qed.

Lemma rstrip_spaces l1 l2 :
  Forall (λ c, isspace c = true) l2 → rstrip (l1 ++ l2) = rstrip l1.
Proof.
  intros H. unfold rstrip. rewrite rev_app_distr.
  by rewrite lstrip_spaces by (by apply Forall_rev).
Qed.

Lemma rstrip_keeps l1 c l2 :
  rstrip l2 = l2 → isspace c = false →
  rstrip (l1 ++ c :: l2) = l1 ++ c :: l2.
Proof.
  unfold rstrip. intros Hl Hc.
  assert (lstrip (rev l2) = rev l2) as Hl'.
  { rewrite <- Hl at 2. by rewrite rev_involutive. }
  rewrite rev_app_distr. cbn [rev]. rewrite <- app_assoc. cbn [app].
  rewrite lstrip_keeps by done.
  rewrite rev_app_distr. cbn [rev]. rewrite !rev_involutive.
  by rewrite <- app_assoc.
Qed.

(** A line [path,middle,text] inside white space, where no field has a
    comma, [path] does not start and [text] does not end with white space,
    is read as its three fields. *)
Lemma split_strip_line (lead path middle text trail : string) :
  Forall (λ c, isspace c = true) (chars lead) →
  Forall (λ c, isspace c = true) (chars trail) →
  ","%char ∉ chars path → ","%char ∉ chars middle → ","%char ∉ chars text →
  lstrip (chars path) = chars path → rstrip (chars text) = chars text →
  split "," (strip (lead +:+ path +:+ "," +:+ middle +:+ "," +:+ text
                    +:+ trail))
  = [path; middle; text].
Proof.
  intros Hlead Htrail Hp Hm Ht Hpath Htext.
  assert (strip (lead +:+ path +:+ "," +:+ middle +:+ "," +:+ text +:+ trail)
          = path +:+ String "," (middle +:+ String "," text)) as ->.
  { apply chars_inj. unfold strip.
    rewrite list_ascii_of_string_of_list_ascii.
    rewrite !chars_app. cbn [chars app]. rewrite !chars_app. cbn [chars app].
    rewrite lstrip_spaces by done.
    rewrite lstrip_keeps by done.
    replace (chars path ++ "," :: chars middle ++ "," :: chars text
               ++ chars trail)%char
      with ((chars path ++ "," :: chars middle ++ "," :: chars text)
              ++ chars trail)%char
      by (by rewrite <- !app_assoc; cbn; rewrite <- !app_assoc).
    rewrite rstrip_spaces by done.
    replace (chars path ++ "," :: chars middle ++ "," :: chars text)%char
      with ((chars path ++ "," :: chars middle) ++ "," :: chars text)%char
      by (by rewrite <- !app_assoc).
    rewrite rstrip_keeps by done. by rewrite <- !app_assoc. }
  rewrite split_app_sep by done. rewrite split_app_sep by done.
  by rewrite split_no_sep.
Qed.

(** ** utils/data.py: the dataset *)

Section data_dataset.
Import DataDataset.
Context {F A : Type}.
Context (load_audio_mfcc :
           string → option F → option F → result (ndarray2 A)).
Implicit Types (self : PPASRDataset F) (lines : list string).

Abbreviation getitem_sample' := (getitem_sample load_audio_mfcc).

(** X17. A line [path,middle,text] of the list file, inside any white
    space (the newline), whose fields have no comma, whose path does not
    start and whose text does not end with white space, gives at its
    position the feature matrix of [path], computed with the mean and
    standard deviation of the dataset, and the label sequence of [text]. *)
Theorem data_getitem_line lines labels (mean std : option F) (n : nat)
    (lead path middle text trail : string) mfccs :
  lines !! n
  = Some (lead +:+ path +:+ "," +:+ middle +:+ "," +:+ text +:+ trail) →
  Forall (λ c, isspace c = true) (chars lead) →
  Forall (λ c, isspace c = true) (chars trail) →
  ","%char ∉ chars path → ","%char ∉ chars middle → ","%char ∉ chars text →
  lstrip (chars path) = chars path → rstrip (chars text) = chars text →
  load_audio_mfcc path mean std = Ok mfccs →
  getitem_sample' (init lines labels mean std) (Z.of_nat n)
  = Ok (mfccs, convert_transcript (make_vocabulary labels) text).
Proof.
  intros Hn Hlead Htrail Hp Hm Ht Hpath Htext Hload.
  unfold getitem_sample, init. cbn [idx DataDataset.mean DataDataset.std
    vocabulary].
  rewrite getitem_int_nonneg. unfold getitem.
  rewrite list_lookup_fmap, Hn. cbn [fmap option_fmap option_map bind Ok].
  rewrite split_strip_line by done. by rewrite Hload.
Qed.

(** X18. [__len__] counts every line of the list file, and [__getitem__]
    raises [ValueError] at every line that, stripped of the white space
    around it, does not have exactly two commas: an empty line, or a text
    with a comma in it. Outside [-len, len) it raises [IndexError]. *)
Theorem data_getitem_bad_line lines labels (mean std : option F) :
  let self := init lines labels mean std in
  len self = length lines ∧
  (∀ n line,
     lines !! n = Some line →
     length (base.filter (λ c, c = ","%char) (chars (strip line))) ≠ 2 →
     getitem_sample' self (Z.of_nat n) = Raise ValueError) ∧
  (∀ i, ¬ (- Z.of_nat (length lines) ≤ i < Z.of_nat (length lines))%Z →
        getitem_sample' self i = Raise IndexError).
Proof.
  cbn zeta. unfold len, getitem_sample, init. cbn [idx].
  split_and!.
  - by rewrite length_fmap.
  - intros n line Hn Hcount. rewrite getitem_int_nonneg. unfold getitem.
    rewrite list_lookup_fmap, Hn. cbn [fmap option_fmap option_map bind Ok].
    pose proof (split_length "," (strip line)) as Hlen.
    destruct (split "," (strip line)) as [|a [|b [|c [|d rest]]]];
      cbn in Hlen; try done. lia.
  - intros i Hout. rewrite getitem_int_out; [done|].
    by rewrite length_fmap.
Qed.
End data_dataset.

(** ** train.py: checkpoints and resuming *)

Lemma digit_runs_nonempty l : digit_runs l ≠ [].
Proof.
  destruct l as [|c l]; cbn [digit_runs]; [done|].
  destruct (isdigit c); [|done]. by destruct (digit_runs l).
Qed.

Lemma digit_runs_app l c l2 :
  isdigit c = false →
  digit_runs (l ++ c :: l2) = digit_runs l ++ digit_runs l2.
Proof.
  intros Hc. induction l as [|x l IH]; cbn [app digit_runs].
  - by rewrite Hc.
  - rewrite IH. pose proof (digit_runs_nonempty l).
    destruct (isdigit x); [|done]. by destruct (digit_runs l).
Qed.

Lemma digit_runs_digits ds :
  Forall (λ c, isdigit c = true) ds → digit_runs ds = [ds].
Proof.
  induction 1 as [|c ds Hc _ IH]; cbn [digit_runs]; [done|].
  by rewrite Hc, IH.
Qed.

Lemma findall_digits_app (l : list ascii) c l2 :
  isdigit c = false →
  base.filter (λ r, r ≠ []) (digit_runs (l ++ c :: l2))
  = base.filter (λ r, r ≠ []) (digit_runs l)
    ++ base.filter (λ r, r ≠ []) (digit_runs l2).
Proof. intros Hc. by rewrite digit_runs_app, filter_app. Qed.

Lemma findall_digits_no_digit (l : list ascii) :
  Forall (λ c, isdigit c = false) l →
  base.filter (λ r, r ≠ []) (digit_runs l) = [].
Proof.
  induction 1 as [|c l Hc _ IH]; [done|].
  change (c :: l) with ([] ++ c :: l).
  rewrite (findall_digits_app [] c l Hc). by rewrite IH.
Qed.

Lemma string_of_uint_digits d :
  Forall (λ c, isdigit c = true) (chars (NilEmpty.string_of_uint d)).
Proof. induction d; cbn; by constructor. Qed.

Lemma int_of_digits_uint d acc :
  foldl (λ acc c, 10 * acc + (nat_of_ascii c - 48)) acc
    (chars (NilEmpty.string_of_uint d))
  = Nat.of_uint_acc d acc.
Proof.
  revert acc. induction d as [|d IH|d IH|d IH|d IH|d IH|d IH|d IH|d IH|d IH|d IH];
    intros acc; [done|..];
    cbn [NilEmpty.string_of_uint list_ascii_of_string foldl Nat.of_uint_acc];
    rewrite IH, Nat.tail_mul_spec; f_equal;
    match goal with |- context [nat_of_ascii ?c] =>
      let v := eval vm_compute in (nat_of_ascii c) in
      change (nat_of_ascii c) with v
    end; lia.
Qed.

(** Reading back a number printed with [%d]. *)
Lemma int_of_digits_format_d n : int_of_digits (chars (format_d n)) = n.
Proof.
  unfold int_of_digits, format_d. rewrite int_of_digits_uint.
  apply Unsigned.of_to.
Qed.

Lemma format_d_nonempty n : chars (format_d n) ≠ [].
Proof.
  intros Hnil. pose proof (int_of_digits_format_d n) as Hn.
  rewrite Hnil in Hn. cbn in Hn. subst n. done.
Qed.

(** The characters of a joined path whose second part is no absolute
    path: those of the first part, a slash unless the first part is empty
    or ends with one, and those of the second part. *)
Lemma path_join_chars a c b :
  c ≠ "/"%char →
  ∃ slash, (slash = [] ∨ slash = ["/"%char]) ∧
           chars (path_join a (String c b))
           = chars a ++ slash ++ chars (String c b).
Proof.
  intros Hc. unfold path_join.
  assert (∀ T (x y : T),
            match String c b with String "/" _ => x | _ => y end = y) as ->.
  { intros T x y.
    destruct c as [[] [] [] [] [] [] [] []]; try done. }
  destruct (last (chars a)) as [d|] eqn:Hlast.
  - assert (∀ x y : string,
              chars (match d with "/"%char => x | _ => y end) = chars x
              ∨ chars (match d with "/"%char => x | _ => y end) = chars y)
      as Hd.
    { intros x y. destruct d as [[] [] [] [] [] [] [] []]; auto. }
    destruct (Hd (a +:+ String c b) (a +:+ String "/" (String c b)))
      as [-> | ->]; rewrite chars_app.
    + exists []. auto.
    + exists ["/"%char]. auto.
  - exists []. split; [auto|].
    apply last_None in Hlast. by rewrite Hlast.
Qed.

(** X19. Resuming from the directory that [save_model] writes for an
    epoch other than the last one starts from that epoch: the epoch number
    is read back from the end of the path, whatever the directory given
    as [save_model]. *)
Theorem last_epoch_model_path save_model num_epoch epoch :
  Z.of_nat epoch ≠ (num_epoch - 1)%Z →
  Train.last_epoch (Some (Train.model_path save_model num_epoch epoch))
  = Ok epoch.
Proof.
  intros Hne. unfold Train.model_path. rewrite decide_False by done.
  unfold Train.last_epoch, findall_digits.
  destruct (path_join_chars save_model "e" ("poch_" +:+ format_d epoch))
    as (slash & Hslash & Hchars); [done|].
  change (String "e" ("poch_" +:+ format_d epoch))
    with ("epoch_" +:+ format_d epoch) in Hchars.
  rewrite Hchars, chars_app.
  replace (chars save_model ++ slash ++ chars "epoch_"
             ++ chars (format_d epoch))
    with ((chars save_model ++ slash ++ chars "epoch")
            ++ "_"%char :: chars (format_d epoch))
    by (by rewrite <- !app_assoc).
  rewrite findall_digits_app by done.
  rewrite (digit_runs_digits (chars (format_d epoch)))
    by apply string_of_uint_digits.
  rewrite filter_cons_True by apply format_d_nonempty.
  rewrite filter_nil. unfold getitem_last. rewrite last_snoc.
  cbn [bind Ok]. by rewrite int_of_digits_format_d.
Qed.

(** X20. The directory of the last epoch is [step_final], which has no
    number: resuming from it reads the epoch from the last run of digits
    in the directory given as [save_model], and raises [IndexError] when
    that directory has no digit (as the default, [models/]). *)
Theorem last_epoch_step_final save_model num_epoch epoch :
  Z.of_nat epoch = (num_epoch - 1)%Z →
  Train.last_epoch (Some (Train.model_path save_model num_epoch epoch))
  = Train.last_epoch (Some save_model) ∧
  (Forall (λ c, isdigit c = false) (chars save_model) →
   Train.last_epoch (Some (Train.model_path save_model num_epoch epoch))
   = Raise IndexError).
Proof.
  intros Heq. unfold Train.model_path. rewrite decide_True by done.
  assert (findall_digits (path_join save_model "step_final")
          = findall_digits save_model) as Hsame.
  { unfold findall_digits.
    destruct (path_join_chars save_model "s" "tep_final")
      as (slash & Hslash & Hchars); [done|].
    rewrite Hchars.
    assert (Forall (λ c, isdigit c = false)
              (slash ++ chars "step_final")) as Hno.
    { destruct Hslash as [-> | ->]; cbn; repeat constructor. }
    destruct (slash ++ chars "step_final") as [|c rest] eqn:Hsuf.
    { by destruct Hslash as [-> | ->]. }
    apply Forall_cons in Hno as [Hc Hrest].
    rewrite findall_digits_app by done.
    by rewrite (findall_digits_no_digit rest), app_nil_r. }
  unfold Train.last_epoch. rewrite Hsame. split; [done|].
  intros Hno. unfold findall_digits.
  by rewrite findall_digits_no_digit.
Qed.

(** ** The properties above at small inputs *)

Import MoreExamples.

Lemma collate_fn_shape_witness :
  collate_fn 0%Z short_first = Ok short_first_out ∧
  dim0 short_first_out.1.1.1 = 2 ∧
  head short_first_out.1.2 = Some (dim2 short_first_out.1.1.1) ∧
  shape1 short_first_out.1.1.2 ∈ short_first_out.2.
Proof.
  split; [reflexivity|].
  destruct (collate_fn_shape 0%Z short_first _ _ _ _ eq_refl)
    as (H1 & _ & _ & _ & _ & _ & H2 & _ & H3 & _).
  auto.
Defined.

Lemma collate_fn_permutation_witness :
  short_first ≡ₚ long_first ∧
  NoDup ((λ s : sample Z, shape1 s.1) <$> short_first) ∧
  collate_fn 0%Z short_first = collate_fn 0%Z long_first.
Proof.
  assert (short_first ≡ₚ long_first) as Hperm by apply Permutation_swap.
  assert (NoDup ((λ s : sample Z, shape1 s.1) <$> short_first)) as Hnd.
  { compute_done. }
  split_and!; [exact Hperm|exact Hnd|].
  exact (collate_fn_permutation 0%Z short_first long_first Hperm Hnd).
Defined.

Lemma collate_fn_singleton_witness :
  wf2 f_long ∧
  collate_fn 0%Z [(f_long, [9%Z])]
  = Ok (Ndarray3 1 2 2 [rows f_long], Ndarray2 1 1 [[9%Z]], [2], [1]).
Proof.
  assert (wf2 f_long) as Hwf by (split; repeat constructor).
  split; [exact Hwf|].
  exact (collate_fn_singleton 0%Z f_long [9%Z] Hwf).
Defined.

Lemma collate_fn_repeats_single_row_witness :
  collate_fn 0%Z mixed_F = Ok mixed_F_out ∧
  planes mixed_F_out.1.1.1 !! 1 = Some (replicate 2 ([7%Z] ++ [0%Z])).
Proof.
  split; [reflexivity|].
  exact (collate_fn_repeats_single_row 0%Z mixed_F _ _ _ _ 1 (f_thin, [])
           [7%Z] eq_refl eq_refl eq_refl eq_refl).
Defined.

Lemma predict_low_rank_unchanged_witness :
  length (t_shape flat) < 3 ∧
  predict 0%Z lenient_run flat chunk1_lens after_chunk1
  = (after_chunk1, Raise IndexError) ∧
  predict_chunk 0%Z as_is as_is lenient_run flat chunk1_lens after_chunk1
  = (after_chunk1, Raise IndexError).
Proof.
  assert (length (t_shape flat) < 3) as Hlen by (cbn; lia).
  split; [exact Hlen|].
  exact (predict_low_rank_unchanged 0%Z as_is as_is lenient_run after_chunk1
           flat chunk1_lens Hlen).
Defined.

Lemma predict_ignores_stream_state_witness :
  output_state_h after_chunk1 ≠ output_state_h fresh ∧
  (predict 0%Z lenient_run chunk1 chunk1_lens after_chunk1).2
  = (predict 0%Z lenient_run chunk1 chunk1_lens fresh).2.
Proof.
  split; [done|].
  exact (proj1 (predict_ignores_stream_state 0%Z lenient_run after_chunk1
                  fresh chunk1 chunk1_lens eq_refl eq_refl eq_refl)).
Defined.

Lemma predict_chunk_after_reset_isolated_witness :
  (predict_chunk 0%Z as_is as_is lenient_run chunk2 chunk2_lens
     (reset_stream after_chunk1).1).2
  = (predict_chunk 0%Z as_is as_is lenient_run chunk2 chunk2_lens
       (reset_stream fresh).1).2.
Proof.
  exact (proj1 (predict_chunk_after_reset_isolated 0%Z as_is as_is
                  lenient_run after_chunk1 fresh chunk2 chunk2_lens
                  eq_refl eq_refl eq_refl)).
Defined.

Lemma predict_chunk_few_outputs_witness :
  let res :=
    predict_chunk 0%Z as_is as_is three_run chunk1 chunk1_lens fresh in
  res.2 = Raise IndexError ∧
  output_state_c res.1 = Some (zeros 0%Z [1; 1; 1]) ∧
  output_state_h res.1 = Some new_h.
Proof.
  intros res.
  assert (Idle fresh ∨ Active fresh) as Hst by (by left).
  assert (length [probs; lens; new_h] < 4) as Hlen by (cbn; lia).
  let v := eval vm_compute in
    (predict_chunk 0%Z as_is as_is three_run chunk1 chunk1_lens fresh) in
  match v with
  | (?s, ?r) =>
      assert (predict_chunk 0%Z as_is as_is three_run chunk1 chunk1_lens fresh
              = (s, r)) as Hcall by (vm_compute; reflexivity);
      assert (predictor_run three_run s = (s, Ok [probs; lens; new_h]))
        as Hrun by (vm_compute; reflexivity);
      pose proof (predict_chunk_few_outputs 0%Z as_is as_is three_run fresh
                    chunk1 chunk1_lens 1 1 1 s r [probs; lens; new_h]
                    eq_refl Hst Hcall Hrun Hlen) as H
  end.
  vm_compute in H. vm_compute. exact H.
Defined.

Lemma predict_chunk_twice_witness :
  ∃ s1 s2,
    predict_chunk 0%Z as_is as_is lenient_run chunk1 chunk1_lens fresh
    = (s1, Ok (probs, lens)) ∧
    predict_chunk 0%Z as_is as_is lenient_run chunk2 chunk2_lens s1
    = (s2, Ok (probs, lens)) ∧
    output_state_h s2 = Some new_h ∧ output_state_c s2 = Some new_c.
Proof.
  exact (predict_chunk_twice 0%Z as_is as_is lenient_run fresh
           chunk1 chunk1_lens chunk2 chunk2_lens 1 1 1 2 1 1
           probs lens new_h new_c [] probs lens new_h new_c []
           eq_refl eq_refl eq_refl eq_refl eq_refl eq_refl).
Defined.

Lemma make_vocabulary_round_trip_witness :
  NoDup symbols ∧
  (make_vocabulary symbols !! "l"%char = Some (Z.of_nat 3)
   ↔ symbols !! 3 = Some "l"%char).
Proof.
  assert (NoDup symbols) as Hnd by compute_done.
  split; [exact Hnd|].
  exact (make_vocabulary_round_trip symbols 3 "l" Hnd).
Defined.


Lemma data_getitem_line_witness :
  DataDataset.getitem_sample load_audio_mfcc
    (DataDataset.init list_file symbols None None) (Z.of_nat 0)
  = Ok (f_long, convert_transcript (make_vocabulary symbols) "hello").
Proof.
  apply (data_getitem_line load_audio_mfcc list_file symbols None None 0
           "" "a.wav" "3.5" "hello" newline f_long).
  - reflexivity.
  - constructor.
  - repeat constructor.
  - compute_done.
  - compute_done.
  - compute_done.
  - reflexivity.
  - reflexivity.
  - reflexivity.
Defined.

Lemma data_getitem_bad_line_witness :
  DataDataset.len (DataDataset.init (F:=unit) list_file symbols None None)
  = 3 ∧
  DataDataset.getitem_sample load_audio_mfcc
    (DataDataset.init list_file symbols None None) (Z.of_nat 1)
  = Raise ValueError ∧
  DataDataset.getitem_sample load_audio_mfcc
    (DataDataset.init list_file symbols None None) (Z.of_nat 2)
  = Raise ValueError.
Proof.
  destruct (data_getitem_bad_line load_audio_mfcc list_file symbols None None)
    as (Hlen & Hbad & _).
  split_and!.
  - exact Hlen.
  - apply (Hbad 1 newline); [reflexivity|]. vm_compute. lia.
  - apply (Hbad 2 ("b.wav,2,oh, hello" +:+ newline)); [reflexivity|].
    vm_compute. lia.
Defined.

Lemma last_epoch_model_path_witness :
  Z.of_nat 17 ≠ (200 - 1)%Z ∧
  Train.last_epoch (Some (Train.model_path "models/" 200 17)) = Ok 17.
Proof.
  assert (Z.of_nat 17 ≠ (200 - 1)%Z) as Hne by lia.
  split; [exact Hne|].
  exact (last_epoch_model_path "models/" 200 17 Hne).
Defined.

Lemma last_epoch_step_final_witness :
  Z.of_nat 199 = (200 - 1)%Z ∧
  Train.model_path "models/" 200 199 = "models/step_final" ∧
  Train.last_epoch (Some (Train.model_path "models/" 200 199))
  = Raise IndexError.
Proof.
  assert (Z.of_nat 199 = (200 - 1)%Z) as Heq by reflexivity.
  split_and!; [exact Heq|reflexivity|].
  apply (proj2 (last_epoch_step_final "models/" 200 199 Heq)).
  repeat constructor.
Defined.
